(** * mozillians.phonebook.views: the phonebook request handlers

    A shallow embedding of [src/mozillians/phonebook/views.py].  The
    handlers are translated statement by statement into a small state and
    exception monad over the part of the world a request can observe or
    change: the profile table, the identity attached to the request, and
    the ordered log of side effects (flash messages, queued tasks, saves,
    logging, logout).

    The collaborators the handlers import but which live in other modules
    (forms, model managers, the search backend, middleware constants) are
    the fields of the class [Collaborators]; Django's own [Paginator],
    [QueryDict], [login_required] and [require_POST] are written out. *)

From Stdlib Require Import ZArith String List Bool Lia.
From stdpp Require Import base option list gmap strings.

Open Scope string_scope.
Open Scope Z_scope.

(** ** Data model *)

(** The privacy tiers imported from [mozillians.users.managers]. *)
Inductive Level := PRIVILEGED | EMPLOYEES | MOZILLIANS | PUBLIC.

Global Instance Level_eq_dec : EqDecision Level.
Proof. solve_decision. Defined.

(** [django.contrib.auth.models.User], the columns the handlers read. *)
Record User := mkUser {
  id : Z;
  username : string;
  email : string
}.

(** A named tag: groups, skills and languages share the model. *)
Record Group := mkGroup { group_name : string }.

(** [mozillians.users.models.UserProfile] joined with its user.  The last
    field is the attribute [set_instance_privacy_level] writes on one
    in-memory instance; [None] is an instance no privacy level was put
    on (the unfiltered record). *)
Record UserProfile := mkProfile {
  pk : Z;
  user : User;
  full_name : string;
  is_vouched : bool;
  vouched_by : option Z;
  basket_token : string;
  instance_privacy_level : option Level
}.

Definition set_instance_privacy_level (level : Level) (p : UserProfile)
  : UserProfile :=
  mkProfile (pk p) (user p) (full_name p) (is_vouched p) (vouched_by p)
            (basket_token p) (Some level).

Definition with_user (u : User) (p : UserProfile) : UserProfile :=
  mkProfile (pk p) u (full_name p) (is_vouched p) (vouched_by p)
            (basket_token p) (instance_privacy_level p).

(** Python exceptions that leave a handler. *)
Inductive Exn :=
| Http404
| DoesNotExist
| MultipleObjectsReturned
| AttributeError
| IndexError
| ZeroDivisionError
| PageNotAnInteger
| EmptyPage
| RecursionLimit.

Inductive MsgLevel := INFO | SUCCESS | WARNING | ERROR.

(** Tasks handed to the asynchronous dispatcher with [.delay]. *)
Inductive Task :=
| unindex_objects (ids : list Z) (public_index : bool)
| remove_from_basket_task (email_ token : string).

(** The side effects of a request, in the order they happen. *)
Inductive Event :=
| Message (lvl : MsgLevel) (text : string)
| Delay (t : Task)
| Anonymize (profile_pk : Z)
| LogInfo (fmt : string) (arg : Z)
| Logout
| SaveUser (u : User)
| SaveProfile (p : UserProfile)
| UpdateInvites.

(** What a request can see and change. [request_user] is [request.user]:
    [None] is Django's AnonymousUser, [Some p] an authenticated user
    together with its [userprofile]. *)
Record World := mkWorld {
  db : list UserProfile;
  request_user : option UserProfile;
  trace : list Event
}.

(** [request.GET] and [request.POST]: the pairs in the order they were
    sent; a key may repeat. *)
Definition QueryDict := list (string * string).

(** [QueryDict.get key default]: the last value sent for the key. *)
Fixpoint QueryDict_get (q : QueryDict) (key : string) : option string :=
  match q with
  | [] => None
  | (k, v) :: rest =>
      match QueryDict_get rest key with
      | Some v' => Some v'
      | None => if String.eqb k key then Some v else None
      end
  end.

Record Request := mkRequest {
  method : string;
  path : string;
  GET : QueryDict;
  POST : QueryDict;
  FILES : list (string * string);
  is_ajax : bool
}.

(** ** The handler monad: state and exceptions *)

Definition M (A : Type) : Type := World -> (Exn + A) * World.

Definition ret {A} (a : A) : M A := fun w => (inr a, w).

Definition bind {A B} (c : M A) (k : A -> M B) : M B :=
  fun w => match c w with
           | (inr a, w') => k a w'
           | (inl e, w') => (inl e, w')
           end.

Definition raise {A} (e : Exn) : M A := fun w => (inl e, w).

Definition gets {A} (f : World -> A) : M A := fun w => (inr (f w), w).

Definition emit (ev : Event) : M unit :=
  fun w => (inr tt, mkWorld (db w) (request_user w) (trace w ++ [ev])).

Definition set_db (d : list UserProfile) : M unit :=
  fun w => (inr tt, mkWorld d (request_user w) (trace w)).

Definition set_request_user (u : option UserProfile) : M unit :=
  fun w => (inr tt, mkWorld (db w) u (trace w)).

Definition lift {A} (r : Exn + A) : M A :=
  match r with inl e => raise e | inr a => ret a end.

Notation "'do' x <- c ; k" := (bind c (fun x => k))
  (at level 10, x name, c at level 100, k at level 200).
Notation "'run' c ; k" := (bind c (fun _ => k))
  (at level 10, c at level 100, k at level 200).

(** ** Responses *)

Inductive Url :=
| Reverse (name : string) (args : list string)
| LoginUrl (next : string * QueryDict).

Record Paginator := mkPaginator {
  object_list : list UserProfile;
  per_page : Z
}.

Record Page := mkPage {
  page_objects : list UserProfile;
  number : Z;
  paginator : Paginator
}.

Record Form (I : Type) := mkForm {
  is_bound : bool;
  errors : list string;
  instance : I
}.
Arguments mkForm {I}.
Arguments is_bound {I}.
Arguments errors {I}.
Arguments instance {I}.

Record SearchCleaned := mkCleaned {
  q : option string;
  limit : Z;
  include_non_vouched : bool
}.

(** Values put in a template context. *)
Inductive Value :=
| VNone
| VBool (b : bool)
| VInt (z : Z)
| VStr (s : string)
| VUser (u : User)
| VProfile (p : UserProfile)
| VProfiles (ps : list UserProfile)
| VPage (pg : Page)
| VGroups (gs : list Group)
| VVouchForm (vouchee : Z)
| VUserForm (f : Form User)
| VProfileForm (register : bool) (f : Form UserProfile)
| VSearchForm (data : QueryDict) (cleaned : option SearchCleaned)
| VApps (names : list string).

Inductive Response :=
| HttpResponseRedirect (to : Url)
| Render (template : string) (context : gmap string Value) (status : Z)
| HttpResponseNotAllowed (permitted : list string).

Definition redirect (name : string) (args : list string) : Response :=
  HttpResponseRedirect (Reverse name args).

Definition render (template : string) (data : gmap string Value) : Response :=
  Render template data 200.

(** A view taking the extra URL arguments [A]. *)
Definition View (A : Type) : Type := Request -> A -> M Response.

(** ** Django helpers *)

Definition is_authenticated (u : option UserProfile) : bool :=
  match u with Some _ => true | None => false end.

(** [request.user.userprofile]; AnonymousUser has no such attribute. *)
Definition userprofile : M UserProfile :=
  do u <- gets request_user;
  match u with
  | Some p => ret p
  | None => raise AttributeError
  end.

(** [messages.<level>(request, text)]. *)
Definition messages (lvl : MsgLevel) (text : string) : M unit :=
  emit (Message lvl text).

(** [request.get_full_path()]: the path and, after it, the query string
    when one was sent.  The query string is kept as the pairs
    [request.GET] holds, in the order sent. *)
Definition get_full_path (request : Request) : string * QueryDict :=
  (path request, GET request).

(** [django.contrib.auth.decorators.login_required]: the wrapped view runs
    only for an authenticated user, anybody else is sent to the login page
    with the full path of the request, query string included, as the
    destination to come back to. *)
Definition login_required {A} (view : View A) : View A :=
  fun request a =>
    do u <- gets request_user;
    if is_authenticated u then view request a
    else ret (HttpResponseRedirect (LoginUrl (get_full_path request))).

(** [django.views.decorators.http.require_POST]. *)
Definition require_POST (view : Request -> M Response) : Request -> M Response :=
  fun request =>
    if String.eqb (method request) "POST" then view request
    else ret (HttpResponseNotAllowed ["POST"]).

(** *** Query sets over the profile table *)

Record QuerySet := mkQuerySet {
  rows : list UserProfile;
  qs_privacy_level : option Level
}.

Definition qs_filter (f : UserProfile -> bool) (qs : QuerySet) : QuerySet :=
  mkQuerySet (List.filter f (rows qs)) (qs_privacy_level qs).

(** [.filter(user__username=username)] *)
Definition filter_username (name : string) : QuerySet -> QuerySet :=
  qs_filter (fun p => String.eqb (username (user p)) name).

(** [.exclude(full_name='')] *)
Definition exclude_empty_full_name : QuerySet -> QuerySet :=
  qs_filter (fun p => negb (String.eqb (full_name p) "")).

(** [.filter(vouched_by=profile)] *)
Definition filter_vouched_by (voucher : UserProfile) : QuerySet -> QuerySet :=
  qs_filter (fun p => match vouched_by p with
                      | Some v => Z.eqb v (pk voucher)
                      | None => false
                      end).

Definition exists_ (qs : QuerySet) : bool :=
  match rows qs with [] => false | _ => true end.

(** [.privacy_level(level)]: the instances the query set yields carry
    that level. *)
Definition qs_with_privacy_level (level : Level) (qs : QuerySet) : QuerySet :=
  mkQuerySet (rows qs) (Some level).

Definition fetched (qs : QuerySet) (p : UserProfile) : UserProfile :=
  mkProfile (pk p) (user p) (full_name p) (is_vouched p) (vouched_by p)
            (basket_token p) (qs_privacy_level qs).

(** [.get()]: exactly one row, or an exception. *)
Definition get (qs : QuerySet) : Exn + UserProfile :=
  match rows qs with
  | [] => inl DoesNotExist
  | [p] => inr (fetched qs p)
  | _ => inl MultipleObjectsReturned
  end.

(** [UserProfile.objects] *)
Definition objects : M QuerySet :=
  do d <- gets db; ret (mkQuerySet d None).

(** ** Collaborators

    What [views.py] imports from the rest of the code base and from the
    Python runtime.  Each field stands for the named function or constant;
    the handlers below are generic in all of them. *)
Class Collaborators := {
  (** [mozillians.common.middleware] *)
  LOGIN_MESSAGE : string;
  GET_VOUCHED_MESSAGE : string;
  (** the row filter of [UserProfile.objects.public()] *)
  public_q : UserProfile -> bool;
  (** the properties [UserProfile.privacy_level] and [.is_complete] *)
  privacy_level : UserProfile -> Level;
  is_complete : UserProfile -> bool;
  (** the record [UserProfile.anonymize()] leaves behind *)
  anonymized : UserProfile -> UserProfile;
  (** Python's [int()] on a text value; [None] is ValueError *)
  int_text : string -> option Z;
  (** [forms.SearchForm]: the cleaned data of a valid submission *)
  SearchForm_clean : QueryDict -> option SearchCleaned;
  PAGINATION_LIMIT : Z;
  (** [UserProfile.search(query, public=, include_non_vouched=)] *)
  UserProfile_search : string -> bool -> bool -> list UserProfile;
  (** [Group.search(query)] and [Group.get_curated()] *)
  Group_search : string -> list Group;
  Group_get_curated : list Group;
  (** [forms.UserForm], [forms.ProfileForm] ([false]) and
      [forms.RegisterForm] ([true]): the errors of a bound form, and the
      instance once validation has written the accepted fields onto it *)
  UserForm_full_clean : QueryDict -> User -> list string * User;
  ProfileForm_full_clean :
    bool -> QueryDict -> list (string * string) -> UserProfile ->
    list string * UserProfile;
  (** [profile.groups.all().order_by('name')] and its two siblings *)
  profile_groups : UserProfile -> list Group;
  profile_skills : UserProfile -> list Group;
  profile_languages : UserProfile -> list Group;
  (** [mozillians.groups.helpers.stringify_groups] *)
  stringify_groups : list Group -> string;
  (** [user.apiapp_set.filter(is_active=True)] *)
  active_apps : User -> list string;
  (** what [mozillians.phonebook.utils.update_invites(request)] leaves of
      the stored profiles and of the user on the request: it redeems the
      invitation whose code the session of the request holds *)
  invite_redeemed :
    Request -> list UserProfile -> option UserProfile ->
    list UserProfile * option UserProfile
}.

Section Handlers.
Context `{Collaborators}.

(** [request.user.username]; AnonymousUser's is the empty string. *)
Definition request_username (u : option UserProfile) : string :=
  match u with Some p => username (user p) | None => "" end.

(** [.public()] *)
Definition public : QuerySet -> QuerySet := qs_filter public_q.

(** ** view_profile *)

(** The three statements every rendering path of [view_profile] ends
    with. *)
Definition render_profile (data : gmap string Value) (profile : UserProfile)
  : M Response :=
  let data := <["shown_user" := VUser (user profile)]> data in
  let data := <["profile" := VProfile profile]> data in
  ret (render "phonebook/profile.html" data).

(** The body of [view_profile]; [self] is the module-level name
    [view_profile] the body hands to [login_required]. *)
Definition view_profile_body (self : View string) : View string :=
  fun request uname =>
  let data : gmap string Value := ∅ in
  do u <- gets request_user;
  if is_authenticated u && String.eqb (request_username u) uname then
    (* own profile *)
    let view_as := default "myself" (QueryDict_get (GET request) "view_as") in
    do profile <- userprofile;
    do objs <- objects;
    do profile <-
      (if String.eqb view_as "anonymous" then
         lift (get (filter_username uname (qs_with_privacy_level PUBLIC objs)))
       else if String.eqb view_as "mozillian" then
         lift (get (filter_username uname (qs_with_privacy_level MOZILLIANS objs)))
       else if String.eqb view_as "employee" then
         lift (get (filter_username uname (qs_with_privacy_level EMPLOYEES objs)))
       else if String.eqb view_as "privileged" then
         lift (get (filter_username uname (qs_with_privacy_level PRIVILEGED objs)))
       else ret profile);
    let data := <["privacy_mode" := VStr view_as]> data in
    render_profile data profile
  else
    do objs <- objects;
    let userprofile_query := filter_username uname objs in
    let public_profile_exists := exists_ (public userprofile_query) in
    let profile_exists := exists_ userprofile_query in
    let profile_complete := exists_ (exclude_empty_full_name userprofile_query) in
    let continue_ : M Response :=
      if negb profile_exists || negb profile_complete then raise Http404
      else
        do objs <- objects;
        do profile <- lift (get (filter_username uname objs));
        let profile := set_instance_privacy_level PUBLIC profile in
        do u <- gets request_user;
        do profile <-
          (if is_authenticated u then
             do viewer <- userprofile;
             ret (set_instance_privacy_level (privacy_level viewer) profile)
           else ret profile);
        do u <- gets request_user;
        do offer_vouch <-
          (if negb (is_vouched profile) && is_authenticated u then
             do viewer <- userprofile; ret (is_vouched viewer)
           else ret false);
        let data :=
          if offer_vouch then <["vouch_form" := VVouchForm (pk profile)]> data
          else data in
        render_profile data profile in
    if negb public_profile_exists then
      do u <- gets request_user;
      if negb (is_authenticated u) then
        (* you have to be authenticated to continue *)
        run messages WARNING LOGIN_MESSAGE;
        login_required self request uname
      else
        do viewer <- userprofile;
        if negb (is_vouched viewer) then
          (* you have to be vouched to continue *)
          run messages ERROR GET_VOUCHED_MESSAGE;
          ret (redirect "phonebook:home" [])
        else continue_
    else continue_.

(** [view_profile] refers to itself by name; [fuel] bounds the depth of
    that self reference, and running out of it is Python's recursion
    limit.  One unit is always enough ([view_profile_fuel] below). *)
Fixpoint view_profile (fuel : nat) : View string :=
  match fuel with
  | O => fun _ _ => raise RecursionLimit
  | S fuel' => view_profile_body (view_profile fuel')
  end.

(** ** edit_profile *)

(** [x or None] for a [QueryDict] or [MultiValueDict]: an empty one is
    falsy. *)
Definition or_None {A} (l : list A) : option (list A) :=
  match l with [] => None | _ => Some l end.

(** [forms.UserForm(data, instance=user)].  A form is bound when it is
    given data; only a bound form is validated, and validating it writes
    the accepted fields onto the instance. *)
Definition UserForm (data : option QueryDict) (user_ : User) : Form User :=
  match data with
  | None => mkForm false [] user_
  | Some d => let '(errs, inst) := UserForm_full_clean d user_ in
              mkForm true errs inst
  end.

(** [form(data, files, instance=profile, ...)] with [form] one of
    [forms.ProfileForm] and [forms.RegisterForm]. *)
Definition ProfileForm (register : bool) (data : option QueryDict)
    (files : option (list (string * string))) (profile : UserProfile)
  : Form UserProfile :=
  match data, files with
  | None, None => mkForm false [] profile
  | _, _ =>
      let '(errs, inst) :=
        ProfileForm_full_clean register (default [] data) (default [] files)
                               profile in
      mkForm true errs inst
  end.

(** [form.is_valid()]: bound and without errors. *)
Definition is_valid {I} (f : Form I) : bool :=
  is_bound f && match errors f with [] => true | _ => false end.

(** Truth value of [form.errors]. *)
Definition has_errors {I} (f : Form I) : bool :=
  match errors f with [] => false | _ => true end.

(** [user_form.save()] *)
Definition save_user (u : User) : M unit :=
  run emit (SaveUser u);
  do d <- gets db;
  set_db (map (fun r => if id (user r) =? id u then with_user u r else r) d).

(** [profile_form.save()] *)
Definition save_profile (p : UserProfile) : M unit :=
  run emit (SaveProfile p);
  do d <- gets db;
  set_db (map (fun r => if pk r =? pk p then with_user (user r) p else r) d).

(** [mozillians.phonebook.utils.update_invites(request)]: the call is
    logged; what it does to the profiles and to the user on the request
    is the collaborators'. *)
Definition update_invites (request : Request) : M unit :=
  run emit UpdateInvites;
  do d <- gets db;
  do u <- gets request_user;
  run set_db (fst (invite_redeemed request d u));
  set_request_user (snd (invite_redeemed request d u)).

Definition edit_profile : Request -> M Response :=
  fun request =>
  (* Don't use request.user *)
  do ru <- gets request_user;
  do objs <- objects;
  do profile <-
    match ru with
    | Some r => lift (get (qs_filter (fun p => id (user p) =? id (user r)) objs))
    | None => raise DoesNotExist
    end;
  let user_ := user profile in
  let user_groups := stringify_groups (profile_groups profile) in
  let user_skills := stringify_groups (profile_skills profile) in
  let user_languages := stringify_groups (profile_languages profile) in
  let user_form := UserForm (or_None (POST request)) user_ in
  let new_profile := negb (is_complete profile) in
  let profile_form :=
    ProfileForm new_profile (or_None (POST request)) (or_None (FILES request))
                profile in
  if is_valid user_form && is_valid profile_form then
    do ru <- gets request_user;
    let old_username := request_username ru in
    let user_ := instance user_form in
    run save_user user_;
    run save_profile (instance profile_form);
    (* Notify the user that their old profile URL won't work. *)
    run (if new_profile then
           run update_invites request;
           messages INFO "Your account has been created."
         else if negb (String.eqb (username user_) old_username) then
           messages INFO
             "You changed your username; please note your profile URL has also changed."
         else ret tt);
    ret (HttpResponseRedirect (Reverse "phonebook:profile_view" [username user_]))
  else
    do objs <- objects;
    do own <- userprofile;
    let data : gmap string Value :=
      <["profile_form" := VProfileForm new_profile profile_form]>
      (<["user_form" := VUserForm user_form]>
      (<["user_groups" := VStr user_groups]>
      (<["my_vouches" := VProfiles (rows (filter_vouched_by profile objs))]>
      (<["profile" := VProfile own]>
      (<["apps" := VApps (active_apps (instance user_form))]> ∅))))) in
    (* If there are form errors, don't send a 200 OK. *)
    let status := if has_errors profile_form || has_errors user_form
                  then 400 else 200 in
    ret (Render "phonebook/edit_profile.html" data status).

(** ** delete *)

(** [user.userprofile.anonymize()]: the record attached to the request
    and its row are both replaced by the anonymized record. *)
Definition anonymize : M unit :=
  do p <- userprofile;
  run emit (Anonymize (pk p));
  run set_request_user (Some (anonymized p));
  do d <- gets db;
  set_db (map (fun r => if pk r =? pk p then anonymized p else r) d).

(** [auth.logout(request)] *)
Definition logout : M unit :=
  run emit Logout;
  set_request_user None.

(** The body of [delete], under [require_POST]. *)
Definition delete_body : Request -> M Response :=
  fun request =>
  do p <- userprofile;
  run emit (Delay (unindex_objects [pk p] false));
  do p <- userprofile;
  run emit (Delay (unindex_objects [pk p] true));
  do p <- userprofile;
  run emit (Delay (remove_from_basket_task (email (user p)) (basket_token p)));
  run anonymize;
  do p <- userprofile;
  run emit (LogInfo "Deleting %d" (id (user p)));
  run logout;
  ret (redirect "phonebook:home" []).

Definition delete : Request -> M Response := require_POST delete_body.

(** ** search *)

(** What [request.GET.get('page', 1)] yields: the text sent, or the
    integer default. *)
Inductive PageArg :=
| PyText (s : string)
| PyInt (z : Z).

(** [int(number)] *)
Definition py_int (v : PageArg) : option Z :=
  match v with
  | PyInt z => Some z
  | PyText s => int_text s
  end.

(** Python's [l[bottom:top]] on a list. *)
Definition slice_index (len i : Z) : Z :=
  if i <? 0 then Z.max 0 (len + i) else Z.min i len.

Definition slice {A} (l : list A) (bottom top : Z) : list A :=
  let len := Z.of_nat (length l) in
  let b := slice_index len bottom in
  let t := slice_index len top in
  take (Z.to_nat (t - b)) (drop (Z.to_nat b) l).

(** *** [django.core.paginator.Paginator], with its defaults [orphans=0]
    and [allow_empty_first_page=True] *)

Definition orphans : Z := 0.
Definition allow_empty_first_page : bool := true.

Definition count (p : Paginator) : Z := Z.of_nat (length (object_list p)).

(** [int(ceil(hits / float(per_page)))] with [hits = max(1, count - orphans)] *)
Definition num_pages (p : Paginator) : Exn + Z :=
  if (count p =? 0) && negb allow_empty_first_page then inr 0
  else
    let hits := Z.max 1 (count p - orphans) in
    if per_page p =? 0 then inl ZeroDivisionError
    else inr (- ((- hits) / per_page p)).

Definition validate_number (p : Paginator) (v : PageArg) : Exn + Z :=
  match py_int v with
  | None => inl PageNotAnInteger
  | Some n =>
      if n <? 1 then inl EmptyPage
      else
        match num_pages p with
        | inl e => inl e
        | inr np =>
            if n >? np then
              if (n =? 1) && allow_empty_first_page then inr n
              else inl EmptyPage
            else inr n
        end
  end.

Definition page (p : Paginator) (v : PageArg) : Exn + Page :=
  match validate_number p v with
  | inl e => inl e
  | inr n =>
      let bottom := (n - 1) * per_page p in
      let top := bottom + per_page p in
      let top := if top + orphans >=? count p then count p else top in
      inr (mkPage (slice (object_list p) bottom top) n p)
  end.

(** [len(paginator.page_range)], the length of [range(1, num_pages + 1)] *)
Definition page_range_len (p : Paginator) : Exn + Z :=
  match num_pages p with
  | inl e => inl e
  | inr np => inr (Z.max 0 np)
  end.

(** [people[0]] *)
Definition page_first (pg : Page) : Exn + UserProfile :=
  match page_objects pg with
  | [] => inl IndexError
  | x :: _ => inr x
  end.

(** The [try: people = paginator.page(page)] statement of [search] with
    its two handlers: page 1 for PageNotAnInteger, the last page for
    EmptyPage; any other exception leaves the handler. *)
Definition page_or_fallback (p : Paginator) (v : PageArg) : Exn + Page :=
  match page p v with
  | inl PageNotAnInteger => page p (PyInt 1)
  | inl EmptyPage =>
      match num_pages p with
      | inl e => inl e
      | inr np => page p (PyInt np)
      end
  | r => r
  end.

(** The local variables [search] builds its context from. *)
Record SearchLocals := mkLocals {
  l_num_pages : Z;
  l_limit : option Z;
  l_people : Value;
  l_show_pagination : bool;
  l_groups : option (list Group);
  l_curated_groups : option (list Group)
}.

(** Truth value of [groups]: [None] and the empty result are falsy. *)
Definition groups_truthy (g : option (list Group)) : bool :=
  match g with
  | Some (_ :: _) => true
  | _ => false
  end.

Definition opt_value {A} (f : A -> Value) (o : option A) : Value :=
  match o with Some a => f a | None => VNone end.

(** The branch of [search] taken when the form is valid: either an early
    redirect, or the locals to render. *)
Definition search_valid (request : Request) (cleaned : SearchCleaned)
  : M (Response + SearchLocals) :=
  let query := default "" (q cleaned) in
  let limit_ := limit cleaned in
  let include_non_vouched_ := include_non_vouched cleaned in
  let page_ := match QueryDict_get (GET request) "page" with
               | Some s => PyText s
               | None => PyInt 1
               end in
  let curated_groups := Group_get_curated in
  do u <- gets request_user;
  do vouched <- (if is_authenticated u
                 then do v <- userprofile; ret (is_vouched v)
                 else ret false);
  let public_ := negb vouched in
  let profiles := UserProfile_search query public_ include_non_vouched_ in
  let groups := if negb public_ then Some (Group_search query) else None in
  let paginator_ := mkPaginator profiles limit_ in
  do people <- lift (page_or_fallback paginator_ page_);
  if (Z.of_nat (length profiles) =? 1) && negb (groups_truthy groups) then
    do first <- lift (page_first people);
    ret (inl (redirect "phonebook:profile_view" [username (user first)]))
  else
    do shown <-
      (if count paginator_ >? PAGINATION_LIMIT then
         do n <- lift (page_range_len (paginator people)); ret (true, n)
       else ret (false, 0));
    ret (inr (mkLocals (snd shown) (Some limit_) (VPage people) (fst shown)
                       groups (Some curated_groups))).

Definition search : Request -> M Response :=
  fun request =>
  let form := SearchForm_clean (GET request) in
  do r <-
    match form with
    | Some cleaned => search_valid request cleaned
    | None => ret (inr (mkLocals 0 None (VProfiles []) false None None))
    end;
  match r with
  | inl response => ret response
  | inr l =>
      let d : gmap string Value :=
        <["people" := l_people l]>
        (<["search_form" := VSearchForm (GET request) form]>
        (<["limit" := opt_value VInt (l_limit l)]>
        (<["show_pagination" := VBool (l_show_pagination l)]>
        (<["num_pages" := VInt (l_num_pages l)]>
        (<["groups" := opt_value VGroups (l_groups l)]>
        (<["curated_groups" := opt_value VGroups (l_curated_groups l)]> ∅)))))) in
      if is_ajax request then ret (render "search_ajax.html" d)
      else ret (render "phonebook/search.html" d)
  end.

End Handlers.

(** ** A concrete environment

    A small instance of the collaborators, used to run the handlers on
    concrete requests. *)
Module Demo.

(** Decimal digits only; anything else is not an integer. *)
Fixpoint digits (s : string) (acc : Z) : option Z :=
  match s with
  | EmptyString => Some acc
  | String c rest =>
      let n := Z.of_nat (Ascii.nat_of_ascii c) in
      if (48 <=? n) && (n <=? 57) then digits rest (10 * acc + (n - 48))
      else None
  end.

Definition decimal (s : string) : option Z :=
  match s with
  | EmptyString => None
  | _ => digits s 0
  end.

Definition alice : UserProfile :=
  mkProfile 1 (mkUser 11 "alice" "alice@example.org") "Alice A."
            true None "tok-a" None.
Definition bob : UserProfile :=
  mkProfile 2 (mkUser 12 "bob" "bob@example.org") "Bob B."
            false None "tok-b" None.
Definition carol : UserProfile :=
  mkProfile 3 (mkUser 13 "carol" "carol@example.org") ""
            false None "tok-c" None.
Definition dave : UserProfile :=
  mkProfile 4 (mkUser 14 "dave" "dave@example.org") "Dave D."
            true (Some 1) "tok-d" None.

Definition table : list UserProfile := [alice; bob; carol; dave].

(** A query matches a profile whose username starts with it. *)
Definition matches (query : string) (p : UserProfile) : bool :=
  String.prefix query (username (user p)).

Definition clean (data : QueryDict) : option SearchCleaned :=
  match QueryDict_get data "limit" with
  | Some "x" => None
  | l =>
      Some (mkCleaned (QueryDict_get data "q")
              (match l with
               | Some s => match decimal s with
                           | Some n => if 1 <=? n then n else 20
                           | None => 20
                           end
               | None => 20
               end)
              (match QueryDict_get data "include_non_vouched" with
               | Some "on" => true
               | _ => false
               end))
  end.

Definition required (field : string) (data : QueryDict) : list string :=
  match QueryDict_get data field with
  | Some "" | None => [field ++ ": This field is required."]
  | Some _ => []
  end.

(** The one open invitation, with code abc, is alice's: redeeming it
    leaves the profile vouched by her. *)
Definition invited (p : UserProfile) : UserProfile :=
  mkProfile (pk p) (user p) (full_name p) true (Some 1) (basket_token p)
            (instance_privacy_level p).

#[global] Instance env : Collaborators := {|
  LOGIN_MESSAGE := "You must be logged in to continue.";
  GET_VOUCHED_MESSAGE := "You must be vouched to continue.";
  public_q := fun p => Z.eqb (pk p) 4;
  privacy_level := fun p => if is_vouched p then MOZILLIANS else PUBLIC;
  is_complete := fun p => negb (String.eqb (full_name p) "");
  anonymized := fun p =>
    mkProfile (pk p) (mkUser (id (user p)) "anonymous-user" "") ""
              false None "" (instance_privacy_level p);
  int_text := decimal;
  SearchForm_clean := clean;
  PAGINATION_LIMIT := 20;
  UserProfile_search := fun query public_ nonvouched =>
    List.filter (fun p => matches query p
                          && (if public_ then Z.eqb (pk p) 4
                              else nonvouched || is_vouched p)) table;
  Group_search := fun query =>
    if String.eqb query "staff" then [mkGroup "staff"] else [];
  Group_get_curated := [mkGroup "staff"];
  UserForm_full_clean := fun data u =>
    match required "username" data with
    | [] => ([], mkUser (id u) (default "" (QueryDict_get data "username"))
                        (email u))
    | errs => (errs, u)
    end;
  ProfileForm_full_clean := fun register data files p =>
    match required "full_name" data with
    | [] => ([], mkProfile (pk p) (user p)
                   (default "" (QueryDict_get data "full_name"))
                   (is_vouched p) (vouched_by p) (basket_token p)
                   (instance_privacy_level p))
    | errs => (errs, p)
    end;
  profile_groups := fun _ => [];
  profile_skills := fun _ => [];
  profile_languages := fun _ => [];
  stringify_groups := fun gs => String.concat "," (map group_name gs);
  active_apps := fun _ => [];
  invite_redeemed := fun request d u =>
    match QueryDict_get (GET request) "code", u with
    | Some "abc", Some p =>
        (map (fun r => if pk r =? pk p then invited r else r) d,
         Some (invited p))
    | _, _ => (d, u)
    end
|}.

Definition world (viewer : option UserProfile) : World :=
  mkWorld table viewer [].

Definition get_request (url : string) (query : QueryDict) : Request :=
  mkRequest "GET" url query [] [] false.

Definition post_request (url : string) (body : QueryDict) : Request :=
  mkRequest "POST" url [] body [] false.

End Demo.

(** * The other handlers of [views.py]

    [login], [vouch], [register] and [list_mozillians_in_location].  What
    they import beyond [Collaborators] is the class below. *)
Class MoreCollaborators := {
  (** [forms.VouchForm]: [cleaned_data.get('vouchee')] of a valid form;
      the outer [None] is an invalid form, the inner one a missing key *)
  VouchForm_clean : QueryDict -> option (option Z);
  (** the record [p.vouch(voucher)] leaves behind and saves *)
  vouched : UserProfile -> UserProfile -> UserProfile;
  (** the row filter of [UserProfile.objects.vouched()] *)
  vouched_q : UserProfile -> bool;
  (** the location columns of a profile *)
  country : UserProfile -> string;
  region : UserProfile -> string;
  city : UserProfile -> string;
  (** [mozillians.users.models.COUNTRIES] *)
  COUNTRIES : gmap string string;
  (** Python's [str.lower()] *)
  lower : string -> string;
  (** the [__iexact] lookup: stored value against the argument *)
  iexact : string -> string -> bool
}.

(** What [vouch] answers: an ordinary response, or the empty 400. *)
Inductive VouchResponse :=
| Responded (r : Response)
| HttpResponseBadRequest.

(** Truth value of an optional text argument: [None] and the empty text
    are falsy. *)
Definition text_truthy (s : option string) : bool :=
  match s with
  | None => false
  | Some s' => negb (String.eqb s' "")
  end.

Section MoreHandlers.
Context `{Collaborators} `{MoreCollaborators}.

(** ** login *)
Definition login : Request -> M Response :=
  fun request =>
  do p <- userprofile;
  if is_complete p then ret (redirect "phonebook:home" [])
  else ret (redirect "phonebook:profile_edit" []).

(** ** vouch *)

(** [p.vouch(voucher)] on the instance [p]: the instance becomes the
    vouched record and its row is saved. *)
Definition vouch_profile (p voucher : UserProfile) : M UserProfile :=
  let p' := vouched p voucher in
  do d <- gets db;
  run set_db (map (fun r => if pk r =? pk p then p' else r) d);
  ret p'.

(** The body of [vouch], under [require_POST]. *)
Definition vouch_body : Request -> M VouchResponse :=
  fun request =>
  match VouchForm_clean (POST request) with
  | Some vouchee =>
      do objs <- objects;
      do p <- lift (match vouchee with
                    | Some k => get (qs_filter (fun r => pk r =? k) objs)
                    | None => inl DoesNotExist
                    end);
      do voucher <- userprofile;
      do p <- vouch_profile p voucher;
      (* Notify the current user that they vouched successfully. *)
      run messages INFO
        "Thanks for vouching for a fellow Mozillian! This user is now vouched!";
      ret (Responded (redirect "phonebook:profile_view" [username (user p)]))
  | None => ret HttpResponseBadRequest
  end.

(** [vouch] with its [require_POST] decorator. *)
Definition vouch : Request -> M VouchResponse :=
  fun request =>
  if String.eqb (method request) "POST" then vouch_body request
  else ret (Responded (HttpResponseNotAllowed ["POST"])).

(** ** list_mozillians_in_location *)
Definition list_mozillians_in_location (request : Request)
    (country_ : string) (region_ city_ : option string) : M Response :=
  let country_ := lower country_ in
  let country_name := default country_ (COUNTRIES !! country_) in
  do objs <- objects;
  let queryset :=
    qs_filter (fun p => String.eqb (country p) country_)
              (qs_filter vouched_q objs) in
  let queryset :=
    if text_truthy city_
    then qs_filter (fun p => iexact (city p) (default "" city_)) queryset
    else queryset in
  let queryset :=
    if text_truthy region_
    then qs_filter (fun p => iexact (region p) (default "" region_)) queryset
    else queryset in
  let data : gmap string Value :=
    <["people" := VProfiles (rows queryset)]>
    (<["country_name" := VStr country_name]>
    (<["city_name" := opt_value VStr city_]>
    (<["region_name" := opt_value VStr region_]> ∅))) in
  ret (render "phonebook/location-list.html" data).

(** ** register

    The session is threaded next to the world: [session] is
    [request.session] before the request, the second component of the
    result is the session after it. *)
Definition register (request : Request) (session : gmap string string)
  : M (Response * gmap string string) :=
  do session <-
    match QueryDict_get (GET request) "code" with
    | Some code =>
        let session := <["invite-code" := code]> session in
        do u <- gets request_user;
        do unvouched <-
          (if is_authenticated u
           then do v <- userprofile; ret (negb (is_vouched v))
           else ret false);
        run (if unvouched then update_invites request else ret tt);
        ret session
    | None => ret session
    end;
  ret (redirect "phonebook:home" [], session).

End MoreHandlers.

(** A concrete instance of the further collaborators. *)
Module DemoMore.

Definition lower_ascii (c : Ascii.ascii) : Ascii.ascii :=
  let n := Ascii.nat_of_ascii c in
  if ((65 <=? n) && (n <=? 90))%nat then Ascii.ascii_of_nat (n + 32) else c.

Fixpoint lower_text (s : string) : string :=
  match s with
  | EmptyString => EmptyString
  | String c rest => String (lower_ascii c) (lower_text rest)
  end.

#[global] Instance env : MoreCollaborators := {|
  VouchForm_clean := fun data =>
    match QueryDict_get data "vouchee" with
    | Some s => match Demo.decimal s with
                | Some n => Some (Some n)
                | None => None
                end
    | None => None
    end;
  vouched := fun p voucher =>
    if is_vouched p then p
    else mkProfile (pk p) (user p) (full_name p) true (Some (pk voucher))
                   (basket_token p) (instance_privacy_level p);
  vouched_q := fun p => is_vouched p && negb (String.eqb (full_name p) "");
  country := fun p => if pk p =? 2 then "us" else "gr";
  region := fun p => if pk p =? 1 then "Attica" else "";
  city := fun p => if pk p =? 1 then "Athens" else "";
  COUNTRIES := <["gr" := "Greece"]> (<["us" := "United States"]> ∅);
  lower := lower_text;
  iexact := fun stored arg => String.eqb (lower_text stored) (lower_text arg)
|}.

(** The concrete collaborators with another search form and another
    group search. *)
Definition variant (clean : QueryDict -> option SearchCleaned)
    (group_search : string -> list Group) : Collaborators := {|
  LOGIN_MESSAGE := @LOGIN_MESSAGE Demo.env;
  GET_VOUCHED_MESSAGE := @GET_VOUCHED_MESSAGE Demo.env;
  public_q := @public_q Demo.env;
  privacy_level := @privacy_level Demo.env;
  is_complete := @is_complete Demo.env;
  anonymized := @anonymized Demo.env;
  int_text := @int_text Demo.env;
  SearchForm_clean := clean;
  PAGINATION_LIMIT := @PAGINATION_LIMIT Demo.env;
  UserProfile_search := @UserProfile_search Demo.env;
  Group_search := group_search;
  Group_get_curated := @Group_get_curated Demo.env;
  UserForm_full_clean := @UserForm_full_clean Demo.env;
  ProfileForm_full_clean := @ProfileForm_full_clean Demo.env;
  profile_groups := @profile_groups Demo.env;
  profile_skills := @profile_skills Demo.env;
  profile_languages := @profile_languages Demo.env;
  stringify_groups := @stringify_groups Demo.env;
  active_apps := @active_apps Demo.env;
  invite_redeemed := @invite_redeemed Demo.env
|}.

(** A form that accepts any limit, 0 included. *)
Definition any_limit (data : QueryDict) : option SearchCleaned :=
  Some (mkCleaned (QueryDict_get data "q")
          (default 20 (QueryDict_get data "limit" ≫= Demo.decimal)) false).

End DemoMore.

(** ** invite *)

(** [mozillians.phonebook.models.Invite], the columns [invite] reads. *)
Record Invite := mkInvite {
  inviter : Z;
  recipient : string
}.

(** What [invite] does to invitations, in order: [invite_form.save()] and
    [invite.send(sender=profile)]. *)
Inductive InviteEffect :=
| InviteSaved (i : Invite)
| InviteSent (i : Invite) (sender : Z).

(** What [invite] answers: an ordinary response, or the invite page with
    the form as its only context entry. *)
Inductive InviteResponse :=
| InviteResponded (r : Response)
| InviteRender (template : string) (invite_form : Form Invite).

Section InviteHandler.
(** [forms.InviteForm]: the errors of a bound form, and the instance once
    validation has written the accepted fields onto it. *)
Variable InviteForm_full_clean : QueryDict -> Invite -> list string * Invite.

(** [forms.InviteForm(data, instance=invite)] *)
Definition InviteForm (data : option QueryDict) (i : Invite) : Form Invite :=
  match data with
  | None => mkForm false [] i
  | Some d => let '(errs, inst) := InviteForm_full_clean d i in
              mkForm true errs inst
  end.

(** The invitations handled so far are threaded next to the world. *)
Definition invite (request : Request) (outbox : list InviteEffect)
  : M (InviteResponse * list InviteEffect) :=
  do profile <- userprofile;
  let invite_form :=
    InviteForm (or_None (POST request)) (mkInvite (pk profile) "") in
  if String.eqb (method request) "POST" && is_valid invite_form then
    let invite_ := instance invite_form in
    let outbox := (outbox ++ [InviteSaved invite_])%list in
    let outbox := (outbox ++ [InviteSent invite_ (pk profile)])%list in
    let msg :=
      recipient invite_ ++
      " has been invited to Mozillians. They'll receive an email with instructions on how to join. You can invite another Mozillian if you like." in
    run messages SUCCESS msg;
    ret (InviteResponded (redirect "phonebook:home" []), outbox)
  else
    ret (InviteRender "phonebook/invite.html" invite_form, outbox).

End InviteHandler.

(** A concrete invite form: the recipient must not be empty. *)
Definition demo_invite_clean (data : QueryDict) (i : Invite)
  : list string * Invite :=
  match QueryDict_get data "recipient" with
  | Some r =>
      if String.eqb r "" then (["recipient: This field is required."], i)
      else ([], mkInvite (inviter i) r)
  | None => (["recipient: This field is required."], i)
  end.

(** * Properties *)

(** The events a run added to the log. *)
Definition emitted (before after : World) : list Event :=
  drop (length (trace before)) (trace after).

(** [request.user] is the owner of the profile called [uname]: the test
    that opens [view_profile]. *)
Definition is_owner (w : World) (uname : string) : bool :=
  is_authenticated (request_user w)
  && String.eqb (request_username (request_user w)) uname.

(** The viewer is authenticated and vouched. *)
Definition viewer_vouched (w : World) : bool :=
  match request_user w with
  | Some v => is_vouched v
  | None => false
  end.

(** The rows of the table stored under a username. *)
Definition rows_named (uname : string) (w : World) : list UserProfile :=
  List.filter (fun p => String.eqb (username (user p)) uname) (db w).

(** The rows under a username that have a public-tier projection. *)
Definition public_rows `{Collaborators} (uname : string) (w : World)
  : list UserProfile :=
  List.filter public_q (rows_named uname w).

(** No row under the username has a full name: the record is missing, or
    its profile was never completed. *)
Definition no_completed_profile (uname : string) (w : World) : Prop :=
  forall p, In p (db w) -> username (user p) = uname -> full_name p = "".

(** The viewer is served from the public tier: [public] in [search]. *)
Definition viewer_public (w : World) : bool := negb (viewer_vouched w).

(** The page a search response shows: the page in the context of a
    rendered response, or the page whose single profile a redirect
    leads to. *)
Definition people_shown (response : Response) (pg : Page) : Prop :=
  match response with
  | Render _ ctx _ => ctx !! "people" = Some (VPage pg)
  | HttpResponseRedirect to =>
      exists p, page_first pg = inr p
                /\ to = Reverse "phonebook:profile_view" [username (user p)]
  | _ => False
  end.


(** Modelled from the spec: the public-tier results of
    [UserProfile.search] (not part of the sources) for a query, that is
    the matching profiles that have a public projection, each at privacy
    level PUBLIC. *)
Definition public_tier_results `{Collaborators}
    (index : list UserProfile) (matches : string -> UserProfile -> bool)
    (query : string) : list UserProfile :=
  map (set_instance_privacy_level PUBLIC)
      (List.filter (fun p => public_q p && matches query p) index).

(** Modelled from the spec: [UserProfile.search] of
    [mozillians.users.models], which [search] calls and which is not part
    of the sources.  A search on behalf of a public viewer yields the
    public-tier results whatever the include-non-vouched flag is; for a
    vouched viewer the flag decides whether non-vouched profiles
    appear. *)
Definition spec_search `{Collaborators}
    (index : list UserProfile) (matches : string -> UserProfile -> bool)
    (query : string) (public_ include_non_vouched_ : bool)
  : list UserProfile :=
  if public_ then public_tier_results index matches query
  else List.filter (fun p => matches query p
                             && (include_non_vouched_ || is_vouched p)) index.

(** The collaborators [C] with that search in place of theirs. *)
Definition with_spec_search (C : Collaborators)
    (index : list UserProfile) (matches : string -> UserProfile -> bool)
  : Collaborators := {|
  LOGIN_MESSAGE := @LOGIN_MESSAGE C;
  GET_VOUCHED_MESSAGE := @GET_VOUCHED_MESSAGE C;
  public_q := @public_q C;
  privacy_level := @privacy_level C;
  is_complete := @is_complete C;
  anonymized := @anonymized C;
  int_text := @int_text C;
  SearchForm_clean := @SearchForm_clean C;
  PAGINATION_LIMIT := @PAGINATION_LIMIT C;
  UserProfile_search := @spec_search C index matches;
  Group_search := @Group_search C;
  Group_get_curated := @Group_get_curated C;
  UserForm_full_clean := @UserForm_full_clean C;
  ProfileForm_full_clean := @ProfileForm_full_clean C;
  profile_groups := @profile_groups C;
  profile_skills := @profile_skills C;
  profile_languages := @profile_languages C;
  stringify_groups := @stringify_groups C;
  active_apps := @active_apps C;
  invite_redeemed := @invite_redeemed C
|}.

(** The columns of a profile's own row: of the user joined to it only
    the key is a column of the row. *)
Definition own_columns (p : UserProfile) : UserProfile :=
  with_user (mkUser (id (user p)) "" "") p.

(** An event with the profile a save wrote cut down to its own columns. *)
Definition event_columns (e : Event) : Event :=
  match e with
  | SaveProfile p => SaveProfile (own_columns p)
  | other => other
  end.

(** The privacy tier a recognised [view_as] value stands for. *)
Definition tier_of_view_as (view_as : string) : option Level :=
  if String.eqb view_as "anonymous" then Some PUBLIC
  else if String.eqb view_as "mozillian" then Some MOZILLIANS
  else if String.eqb view_as "employee" then Some EMPLOYEES
  else if String.eqb view_as "privileged" then Some PRIVILEGED
  else None.

(** The privacy level a viewer's own profile gives them; PUBLIC for an
    unauthenticated viewer. *)
Definition viewer_level `{Collaborators} (w : World) : Level :=
  match request_user w with
  | Some v => privacy_level v
  | None => PUBLIC
  end.

(** The world with some more events logged. *)
Definition flash (w : World) (evs : list Event) : World :=
  mkWorld (db w) (request_user w) (trace w ++ evs).

(** The flash message that goes with an answer of [view_profile]: the
    login message with the login redirect, the vouch message with the
    redirect home, none with anything else. *)
Definition flash_of `{Collaborators} (r : Exn + Response) : list Event :=
  match r with
  | inr (HttpResponseRedirect (LoginUrl _)) => [Message WARNING LOGIN_MESSAGE]
  | inr (HttpResponseRedirect (Reverse _ _)) =>
      [Message ERROR GET_VOUCHED_MESSAGE]
  | _ => []
  end.

Ltac unfold_monad :=
  unfold messages, objects, userprofile, lift, emit, set_db,
         set_request_user in *;
  unfold bind, ret, gets, raise in *.

Section ViewProfile.
Context `{Collaborators}.

(** The self reference of [view_profile] is never followed: the only call
    site hands it to [login_required] right after the viewer was found to
    be unauthenticated. *)
Lemma view_profile_body_self (f g : View string) request uname w :
  view_profile_body f request uname w = view_profile_body g request uname w.
Proof.
  destruct w as [d [v|] t]; unfold view_profile_body, login_required;
    unfold_monad; cbn.
  - destruct (String.eqb _ uname); [reflexivity|].
    destruct (negb _); reflexivity.
  - destruct (negb _); reflexivity.
Qed.

Lemma view_profile_fuel fuel request uname w :
  view_profile (S fuel) request uname w = view_profile 1 request uname w.
Proof. cbn [view_profile]. apply view_profile_body_self. Qed.

Lemma no_completed_profile_query uname w :
  no_completed_profile uname w ->
  exists_ (exclude_empty_full_name
             (filter_username uname (mkQuerySet (db w) None))) = false.
Proof.
  intros Hno. unfold exists_, exclude_empty_full_name, filter_username,
    qs_filter. cbn.
  destruct (List.filter _ (List.filter _ (db w))) as [|p l] eqn:E; [done|].
  assert (Hin : In p (p :: l)) by (left; reflexivity).
  rewrite <- E in Hin. apply filter_In in Hin as [Hin Hfull].
  apply filter_In in Hin as [Hin Hname].
  apply String.eqb_eq in Hname. rewrite (Hno p Hin Hname) in Hfull.
  discriminate.
Qed.

(** C1: an unauthenticated viewer of a profile without public-tier
    projection is answered with the redirect to the login page, the only
    event of the request is the login message at warning level, and the
    vouch-required message is not among the events: the authentication
    test comes first. *)
Theorem C1_login_before_vouch fuel request uname w :
  request_user w = None ->
  public_rows uname w = [] ->
  view_profile (S fuel) request uname w =
    (inr (HttpResponseRedirect (LoginUrl (get_full_path request))),
     mkWorld (db w) None (trace w ++ [Message WARNING LOGIN_MESSAGE]))
  /\ emitted w (snd (view_profile (S fuel) request uname w)) =
       [Message WARNING LOGIN_MESSAGE]
  /\ ~ In (Message ERROR GET_VOUCHED_MESSAGE)
          (emitted w (snd (view_profile (S fuel) request uname w))).
Proof.
  intros Hu Hpub.
  assert (E : view_profile (S fuel) request uname w =
    (inr (HttpResponseRedirect (LoginUrl (get_full_path request))),
     mkWorld (db w) None (trace w ++ [Message WARNING LOGIN_MESSAGE]))).
  { rewrite view_profile_fuel. unfold public_rows, rows_named in Hpub.
    destruct w as [d u t]; cbn in Hu, Hpub; subst u.
    cbn. unfold view_profile_body, login_required, public, filter_username,
      qs_filter, exists_. unfold_monad. cbn. rewrite Hpub. reflexivity. }
  rewrite E. unfold emitted. cbn [snd trace].
  rewrite drop_app_length. split; [done|]. split; [done|].
  intros [Hin|[]]. discriminate.
Qed.

(** C2, amended: for a viewer who is not the owner and whom the
    visibility gate lets through (the target has a public-tier row, or the
    viewer is authenticated and vouched), a username without completed
    profile is answered with Http404, and nothing else happens. *)
Theorem C2_not_found_behind_gate fuel request uname w :
  no_completed_profile uname w ->
  is_owner w uname = false ->
  public_rows uname w <> [] \/ viewer_vouched w = true ->
  view_profile (S fuel) request uname w = (inl Http404, w).
Proof.
  intros Hno Hown Hgate. rewrite view_profile_fuel.
  pose proof (no_completed_profile_query _ _ Hno) as Hq.
  unfold is_owner in Hown. unfold public_rows, rows_named in Hgate.
  unfold viewer_vouched in Hgate.
  destruct w as [d u t]; cbn in Hown, Hgate, Hq.
  cbn. unfold view_profile_body, login_required, public. unfold_monad. cbn.
  rewrite Hown. cbn. unfold filter_username in *. rewrite Hq.
  rewrite orb_true_r.
  unfold exists_ at 1. unfold qs_filter at 1. cbn.
  destruct (List.filter public_q _) as [|r rs] eqn:Epub; cbn; [|reflexivity].
  destruct Hgate as [Hne | Hv]; [done|].
  destruct u as [v|]; [|discriminate]. cbn. rewrite Hv. reflexivity.
Qed.

(** C3: when a viewer who is not the owner gets a profile rendered, the
    rendered instance is the stored record carrying the privacy level
    PUBLIC for an unauthenticated viewer, and the viewer's own privacy
    level exactly when the viewer is authenticated. *)
Theorem C3_instance_privacy_level fuel request uname w template ctx status w' :
  is_owner w uname = false ->
  view_profile (S fuel) request uname w
    = (inr (Render template ctx status), w') ->
  exists row,
    rows_named uname w = [row]
    /\ ctx !! "profile" =
         Some (VProfile
                 (set_instance_privacy_level
                    (match request_user w with
                     | Some viewer => privacy_level viewer
                     | None => PUBLIC
                     end) row))
    /\ w' = w.
Proof.
  intros Hown. rewrite view_profile_fuel.
  unfold is_owner in Hown. unfold rows_named.
  destruct w as [d u t]; cbn in Hown.
  cbn. unfold view_profile_body, login_required, public, render_profile, render,
    redirect. unfold_monad. cbn.
  rewrite Hown. cbn.
  unfold get, exclude_empty_full_name, filter_username, qs_filter, exists_,
    fetched. cbn.
  destruct (List.filter (fun p => String.eqb (username (user p)) uname) d)
    as [|row [|row2 rest]] eqn:Erows; [cbn | cbn | cbn -[List.filter]].
  - destruct u as [v|]; cbn; [destruct (is_vouched v); cbn|]; discriminate.
  - intros E. exists row. split; [reflexivity|].
    destruct (negb (String.eqb (full_name row) "")) eqn:Efull; cbn in E.
    2: { destruct (public_q row); cbn in E; [discriminate|].
         destruct u as [v|]; cbn in E; [destruct (is_vouched v); cbn in E|];
           discriminate. }
    destruct u as [v|]; cbn in E.
    + destruct (public_q row); cbn in E;
        [|destruct (is_vouched v) eqn:Ev; cbn in E; [|discriminate]].
      all: rewrite Erows in E; unfold set_instance_privacy_level in *;
        cbn in E; destruct (is_vouched row); cbn in E; rewrite ?Ev in E;
        try destruct (is_vouched v); cbn in E;
        injection E as <- <- <- <-; (split; [|reflexivity]);
        apply lookup_insert_eq.
    + destruct (public_q row); cbn in E; [|discriminate].
      rewrite Erows in E. unfold set_instance_privacy_level in *. cbn in E.
      rewrite andb_false_r in E. injection E as <- <- <- <-.
      split; [|reflexivity]. apply lookup_insert_eq.
  - intros E. exfalso.
    destruct u as [v|]; cbn -[List.filter] in E;
      destruct (List.filter public_q _); cbn -[List.filter] in E;
      try discriminate;
      try (destruct (is_vouched v); cbn -[List.filter] in E;
           try discriminate);
      destruct (List.filter (fun p => negb _) _); cbn -[List.filter] in E;
      try discriminate; rewrite Erows in E; cbn in E; discriminate.
Qed.

(** C4: the owner asking for [view_as=anonymous] gets the stored record
    of that username as the query at privacy level PUBLIC yields it: the
    rendered instance carries the level PUBLIC whatever the owner's own
    privacy level is. *)
Theorem C4_owner_view_as_anonymous fuel request uname w me row :
  request_user w = Some me ->
  username (user me) = uname ->
  QueryDict_get (GET request) "view_as" = Some "anonymous" ->
  rows_named uname w = [row] ->
  get (filter_username uname
         (qs_with_privacy_level PUBLIC (mkQuerySet (db w) None)))
    = inr (set_instance_privacy_level PUBLIC row)
  /\ view_profile (S fuel) request uname w =
       (inr (render "phonebook/profile.html"
               (<["profile" := VProfile (set_instance_privacy_level PUBLIC row)]>
                (<["shown_user" := VUser (user row)]>
                 (<["privacy_mode" := VStr "anonymous"]> ∅)))), w).
Proof.
  intros Hu Hme Hview Hrows. unfold rows_named in Hrows.
  destruct w as [d u t]; cbn in Hu, Hrows; subst u.
  assert (Hget : get (filter_username uname
                        (qs_with_privacy_level PUBLIC (mkQuerySet d None)))
                 = inr (set_instance_privacy_level PUBLIC row)).
  { unfold get, filter_username, qs_filter. cbn. rewrite Hrows. reflexivity. }
  split; [exact Hget|].
  rewrite view_profile_fuel. cbn [view_profile].
  unfold view_profile_body, render_profile. unfold_monad.
  rewrite Hview. cbn. subst uname. rewrite String.eqb_refl. cbn.
  unfold get, filter_username, qs_filter. cbn. rewrite Hrows. reflexivity.
Qed.

(** C10: for the owner, a [view_as] that is none of anonymous, mozillian,
    employee and privileged (a missing parameter counts as myself) renders
    the record attached to the request, untouched, and the value is put
    into the context as [privacy_mode] as it came. *)
Theorem C10_other_view_as_is_myself fuel request uname w me :
  request_user w = Some me ->
  username (user me) = uname ->
  let view_as := default "myself" (QueryDict_get (GET request) "view_as") in
  view_as <> "anonymous" ->
  view_as <> "mozillian" ->
  view_as <> "employee" ->
  view_as <> "privileged" ->
  view_profile (S fuel) request uname w =
    (inr (render "phonebook/profile.html"
            (<["profile" := VProfile me]>
             (<["shown_user" := VUser (user me)]>
              (<["privacy_mode" := VStr view_as]> ∅)))), w).
Proof.
  intros Hu Hme view_as Ha Hm He Hp.
  apply String.eqb_neq in Ha, Hm, He, Hp.
  destruct w as [d u t]; cbn in Hu; subst u.
  rewrite view_profile_fuel. cbn [view_profile].
  unfold view_profile_body, render_profile. unfold_monad.
  fold view_as. rewrite Ha, Hm, He, Hp. cbn. subst uname.
  rewrite String.eqb_refl. reflexivity.
Qed.

End ViewProfile.

Section Delete.
Context `{Collaborators}.

(** C5: a POST to [delete] by an authenticated user queues the removal
    from the private index, then from the public index, then the
    mailing-list removal with the email and basket token the record has
    before it is anonymized, after that anonymizes the record (in memory
    and in the table), logs, and ends the session. *)
Theorem C5_delete_order request w me :
  method request = "POST" ->
  request_user w = Some me ->
  delete request w =
    (inr (redirect "phonebook:home" []),
     mkWorld
       (map (fun r => if pk r =? pk me then anonymized me else r) (db w))
       None
       (trace w ++
          [ Delay (unindex_objects [pk me] false);
            Delay (unindex_objects [pk me] true);
            Delay (remove_from_basket_task (email (user me)) (basket_token me));
            Anonymize (pk me);
            LogInfo "Deleting %d" (id (user (anonymized me)));
            Logout ])).
Proof.
  intros Hpost Hu. destruct w as [d u t]; cbn in Hu; subst u.
  unfold delete, require_POST. rewrite Hpost. cbn [String.eqb].
  change (String.eqb "POST" "POST") with true. cbv iota.
  unfold delete_body, anonymize, logout. unfold_monad. cbn.
  repeat rewrite <- app_assoc. reflexivity.
Qed.

End Delete.

Section EditProfile.
Context `{Collaborators}.

Lemma has_errors_not_valid {I} (f : Form I) :
  has_errors f = true -> is_valid f = false.
Proof.
  unfold has_errors, is_valid. destruct (errors f); [discriminate|].
  intros _. apply andb_false_r.
Qed.

(** C9: when the user form or the profile form has errors, [edit_profile]
    renders the edit page again with both forms in the context and status
    400, and changes nothing; when both forms are valid it answers with
    the redirect to the profile page of the username on the saved user. *)
Theorem C9_edit_profile_status request w ru row :
  request_user w = Some ru ->
  List.filter (fun p => id (user p) =? id (user ru)) (db w) = [row] ->
  let profile := fetched (mkQuerySet (db w) None) row in
  let user_form := UserForm (or_None (POST request)) (user profile) in
  let new_profile := negb (is_complete profile) in
  let profile_form :=
    ProfileForm new_profile (or_None (POST request)) (or_None (FILES request))
                profile in
  (has_errors user_form = true \/ has_errors profile_form = true ->
   exists data,
     edit_profile request w
       = (inr (Render "phonebook/edit_profile.html" data 400), w)
     /\ data !! "user_form" = Some (VUserForm user_form)
     /\ data !! "profile_form" = Some (VProfileForm new_profile profile_form))
  /\ (is_valid user_form = true -> is_valid profile_form = true ->
      fst (edit_profile request w)
        = inr (HttpResponseRedirect
                 (Reverse "phonebook:profile_view"
                          [username (instance user_form)]))).
Proof.
  intros Hu Hrows profile user_form new_profile profile_form.
  destruct w as [d u t]; cbn in Hu, Hrows; subst u.
  assert (Hget : get (qs_filter (fun p => id (user p) =? id (user ru))
                                (mkQuerySet d None)) = inr profile).
  { unfold get, qs_filter. cbn. rewrite Hrows. reflexivity. }
  split.
  - intros Herr.
    assert (Hinvalid : is_valid user_form && is_valid profile_form = false).
    { destruct Herr as [E|E]; apply has_errors_not_valid in E; rewrite E;
        [reflexivity | apply andb_false_r]. }
    assert (Hstatus : has_errors profile_form || has_errors user_form = true).
    { destruct Herr as [E|E]; rewrite E; [apply orb_true_r | reflexivity]. }
    eexists. split.
    + unfold edit_profile. unfold_monad. cbv beta iota delta [db request_user trace].
      rewrite Hget. fold profile. fold user_form. fold new_profile.
      fold profile_form. rewrite Hinvalid, Hstatus. reflexivity.
    + split; [by rewrite lookup_insert_ne, lookup_insert_eq
             | by rewrite lookup_insert_eq].
  - intros Hv1 Hv2.
    unfold edit_profile. unfold_monad. cbv beta iota delta [db request_user trace].
    rewrite Hget. fold profile. fold user_form. fold new_profile.
    fold profile_form. rewrite Hv1, Hv2. cbn [andb].
    unfold save_user, save_profile, update_invites. unfold_monad.
    destruct new_profile; cbn; [reflexivity|].
    destruct (negb _); reflexivity.
Qed.

End EditProfile.

Section Search.
Context `{Collaborators}.

Lemma num_pages_pos p :
  1 <= per_page p -> exists np, num_pages p = inr np /\ 1 <= np.
Proof.
  intros Hl. unfold num_pages, allow_empty_first_page, orphans.
  rewrite andb_false_r. destruct (per_page p =? 0) eqn:E; [lia|].
  eexists. split; [reflexivity|].
  assert ((- Z.max 1 (count p - 0)) `div` per_page p < 0); [|lia].
  apply Z.div_lt_upper_bound; lia.
Qed.

Lemma page_in_range p n np :
  num_pages p = inr np -> 1 <= n <= np ->
  exists pg, page p (PyInt n) = inr pg /\ number pg = n.
Proof.
  intros Hnp Hn. unfold page, validate_number. cbn [py_int]. rewrite Hnp.
  destruct (n <? 1) eqn:E1; [lia|]. destruct (n >? np) eqn:E2; [lia|].
  eexists. split; reflexivity.
Qed.

Lemma page_out_of_range p n np :
  num_pages p = inr np -> 1 <= np -> n < 1 \/ np < n ->
  page p (PyInt n) = inl EmptyPage.
Proof.
  intros Hnp Hpos Hn. unfold page, validate_number. cbn [py_int].
  destruct (n <? 1) eqn:E1; [reflexivity|]. rewrite Hnp.
  destruct (n >? np) eqn:E2; [|lia].
  destruct (n =? 1) eqn:E3; [lia|]. reflexivity.
Qed.

Lemma page_not_an_integer p v :
  py_int v = None -> page p v = inl PageNotAnInteger.
Proof. intros Hv. unfold page, validate_number. by rewrite Hv. Qed.

(** With a positive page size the [try] statement always ends with a
    page: the one asked for when it exists, page 1 when the argument is
    not an integer, the last page when it is out of range. *)
Lemma page_or_fallback_total p v :
  1 <= per_page p ->
  exists pg np,
    page_or_fallback p v = inr pg
    /\ num_pages p = inr np /\ 1 <= np
    /\ (py_int v = None -> page p (PyInt 1) = inr pg /\ number pg = 1)
    /\ (forall n, py_int v = Some n -> n < 1 \/ np < n ->
        page p (PyInt np) = inr pg /\ number pg = np)
    /\ (forall n, py_int v = Some n -> 1 <= n <= np ->
        page p v = inr pg /\ number pg = n)
    /\ paginator pg = p
    /\ (forall x, object_list p = [x] -> page_objects pg = [x]).
Proof.
  intros Hl. destruct (num_pages_pos p Hl) as (np & Hnp & Hpos).
  assert (Hone : forall n pg, page p (PyInt n) = inr pg ->
            paginator pg = p
            /\ (forall x, object_list p = [x] -> page_objects pg = [x])).
  { intros n pg. unfold page, validate_number. cbn [py_int].
    destruct (n <? 1) eqn:E1; [discriminate|]. rewrite Hnp.
    assert (Hsingle : forall x, object_list p = [x] -> np = 1).
    { intros x Hx. unfold num_pages, count, orphans in Hnp.
      rewrite Hx, andb_false_r in Hnp.
      change (Z.max 1 (Z.of_nat (length [x]) - 0)) with 1 in Hnp.
      destruct (per_page p =? 0); [discriminate|].
      injection Hnp as <-.
      change (Z.opp 1) with (-1).
      assert ((-1) `div` per_page p = -1); [|lia].
      symmetry. apply (Z.div_unique_pos _ _ _ (per_page p - 1)); lia. }
    destruct (n >? np) eqn:E2.
    - destruct (n =? 1) eqn:E3; cbn; [lia | discriminate].
    - intros [= <-]. split; [reflexivity|]. intros x Hx. cbn.
      pose proof (Hsingle x Hx). assert (n = 1) as -> by lia.
      unfold count, orphans. rewrite Hx.
      change ((1 - 1) * per_page p) with 0. rewrite Z.add_0_l.
      destruct (per_page p + 0 >=? Z.of_nat (length [x])) eqn:E4;
        [reflexivity | change (Z.of_nat (length [x])) with 1 in E4; lia]. }
  destruct (py_int v) as [n|] eqn:Hv.
  - destruct (Z_lt_dec n 1) as [Hlow | Hlow];
      [| destruct (Z_lt_dec np n) as [Hhigh | Hhigh]].
    3: { destruct (page_in_range p n np Hnp ltac:(lia)) as (pg & Hpg & Hnum).
         assert (Hv' : page p v = inr pg).
         { revert Hpg. unfold page, validate_number. cbn [py_int].
           by rewrite Hv. }
         exists pg, np. unfold page_or_fallback. rewrite Hv'.
         destruct (Hone n pg Hpg) as [Hp Hx].
         repeat split; try done; try lia. all: intros; simplify_eq; lia. }
    all: destruct (page_in_range p np np Hnp ltac:(lia)) as (pg & Hpg & Hnum).
    all: assert (Hv' : page p v = inl EmptyPage)
      by (pose proof (page_out_of_range p n np Hnp Hpos ltac:(lia)) as Hout;
          revert Hout; unfold page, validate_number; cbn [py_int];
          by rewrite Hv).
    all: exists pg, np; unfold page_or_fallback; rewrite Hv', Hnp;
      destruct (Hone np pg Hpg) as [Hp Hx];
      repeat split; try done; try lia; intros; simplify_eq; lia.
  - destruct (page_in_range p 1 np Hnp ltac:(lia)) as (pg & Hpg & Hnum).
    exists pg, np. unfold page_or_fallback.
    rewrite (page_not_an_integer p v Hv).
    destruct (Hone 1 pg Hpg) as [Hp Hx].
    repeat split; try done.
Qed.


(** [search_valid] reads the world once (who is asking) and changes
    nothing: its run written as a function of the world. *)
Lemma search_valid_run request cleaned w :
  search_valid request cleaned w =
    let query := default "" (q cleaned) in
    let page_ := match QueryDict_get (GET request) "page" with
                 | Some s => PyText s
                 | None => PyInt 1
                 end in
    let public_ := viewer_public w in
    let profiles :=
      UserProfile_search query public_ (include_non_vouched cleaned) in
    let groups := if negb public_ then Some (Group_search query) else None in
    let paginator_ := mkPaginator profiles (limit cleaned) in
    match page_or_fallback paginator_ page_ with
    | inl e => (inl e, w)
    | inr people =>
        if (Z.of_nat (length profiles) =? 1) && negb (groups_truthy groups)
        then
          match page_first people with
          | inl e => (inl e, w)
          | inr first =>
              (inr (inl (redirect "phonebook:profile_view"
                                  [username (user first)])), w)
          end
        else if count paginator_ >? PAGINATION_LIMIT then
          match page_range_len (paginator people) with
          | inl e => (inl e, w)
          | inr n =>
              (inr (inr (mkLocals n (Some (limit cleaned)) (VPage people) true
                                  groups (Some Group_get_curated))), w)
          end
        else
          (inr (inr (mkLocals 0 (Some (limit cleaned)) (VPage people) false
                              groups (Some Group_get_curated))), w)
    end.
Proof.
  unfold search_valid, viewer_public, viewer_vouched.
  destruct w as [d [v|] t]; unfold_monad;
    cbv beta iota zeta delta [request_user db trace is_authenticated fst snd].
  all: destruct (page_or_fallback _ _) as [e|people]; [reflexivity|].
  all: destruct (_ && _); [destruct (page_first people); reflexivity|].
  all: destruct (_ >? _); [destruct (page_range_len _)|]; reflexivity.
Qed.

(** C6: a valid submission whose query finds exactly one profile and no
    group is answered with the redirect to that profile's page, whatever
    page was asked for. *)
Theorem C6_single_result_redirect request cleaned w p :
  SearchForm_clean (GET request) = Some cleaned ->
  1 <= limit cleaned ->
  UserProfile_search (default "" (q cleaned)) (viewer_public w)
                     (include_non_vouched cleaned) = [p] ->
  (viewer_public w = false -> Group_search (default "" (q cleaned)) = []) ->
  search request w =
    (inr (redirect "phonebook:profile_view" [username (user p)]), w).
Proof.
  intros Hclean Hl Hsearch Hgroups.
  unfold search. rewrite Hclean. unfold bind at 1.
  rewrite search_valid_run. cbv zeta. rewrite Hsearch.
  set (page_ := match QueryDict_get _ _ with Some s => PyText s | None => _ end).
  destruct (page_or_fallback_total (mkPaginator [p] (limit cleaned)) page_ Hl)
    as (pg & np & Hpg & _ & _ & _ & _ & _ & _ & Hobj).
  rewrite Hpg. specialize (Hobj p eq_refl).
  assert (Hg : groups_truthy
                 (if negb (viewer_public w)
                  then Some (Group_search (default "" (q cleaned)))
                  else None) = false).
  { destruct (viewer_public w); [reflexivity|]. cbn. by rewrite Hgroups. }
  rewrite Hg. cbn [length Z.of_nat Z.eqb Pos.of_succ_nat Pos.eqb andb negb].
  unfold page_first. rewrite Hobj. reflexivity.
Qed.

(** C8: for a valid submission (with the positive page size the form
    cleans to) [search] always answers, and the page it shows is page 1
    when the [page] parameter is not an integer and the last page when
    it is an integer out of range. *)
Theorem C8_page_fallback request cleaned w :
  SearchForm_clean (GET request) = Some cleaned ->
  1 <= limit cleaned ->
  let paginator_ :=
    mkPaginator (UserProfile_search (default "" (q cleaned)) (viewer_public w)
                                    (include_non_vouched cleaned))
                (limit cleaned) in
  let page_ := match QueryDict_get (GET request) "page" with
               | Some s => PyText s
               | None => PyInt 1
               end in
  exists response last,
    search request w = (inr response, w)
    /\ num_pages paginator_ = inr last /\ 1 <= last
    /\ (py_int page_ = None ->
        exists pg, page paginator_ (PyInt 1) = inr pg /\ number pg = 1
                   /\ people_shown response pg)
    /\ (forall n, py_int page_ = Some n -> n < 1 \/ last < n ->
        exists pg, page paginator_ (PyInt last) = inr pg /\ number pg = last
                   /\ people_shown response pg).
Proof.
  intros Hclean Hl paginator_ page_.
  destruct (page_or_fallback_total paginator_ page_ Hl)
    as (pg & np & Hpg & Hnp & Hpos & Hnone & Hout & _ & Hpag & Hobj).
  assert (Hrun : exists response,
            search request w = (inr response, w) /\ people_shown response pg).
  { unfold search. rewrite Hclean. unfold bind at 1.
    rewrite search_valid_run. cbv zeta. fold page_. fold paginator_.
    rewrite Hpg.
    destruct ((Z.of_nat (length _) =? 1) && _) eqn:Hone.
    - apply andb_true_iff in Hone as [Hlen _]. apply Z.eqb_eq in Hlen.
      destruct (UserProfile_search _ _ _) as [|x [|y l]] eqn:Hs;
        [cbn [length] in Hlen; lia | | cbn [length] in Hlen; lia].
      assert (Hx : page_objects pg = [x])
        by (apply Hobj; subst paginator_; cbn; first [exact Hs | reflexivity]).
      unfold page_first. rewrite Hx. eexists. split; [reflexivity|].
      cbn. exists x. unfold page_first. by rewrite Hx.
    - destruct (count paginator_ >? PAGINATION_LIMIT).
      + unfold page_range_len. rewrite Hpag, Hnp. unfold ret.
        destruct (is_ajax request); eexists; (split; [reflexivity|]);
          apply lookup_insert_eq.
      + unfold ret. destruct (is_ajax request); eexists;
          (split; [reflexivity|]); apply lookup_insert_eq. }
  destruct Hrun as (response & Hresp & Hshown).
  exists response, np. repeat split; try done.
  - intros Hv. exists pg. destruct (Hnone Hv). done.
  - intros n Hv Hn. exists pg. destruct (Hout n Hv Hn). done.
Qed.

Lemma page_paginator p v pg : page p v = inr pg -> paginator pg = p.
Proof.
  unfold page. destruct (validate_number p v); [discriminate|].
  by intros [= <-].
Qed.

(** Whatever the [try] statement ends with is a page the paginator
    yields for some page number. *)
Lemma page_or_fallback_page p v pg :
  page_or_fallback p v = inr pg -> exists n, page p (PyInt n) = inr pg.
Proof.
  unfold page_or_fallback. destruct (page p v) as [e|pg0] eqn:Hp.
  - destruct e; try discriminate.
    + intros Hpg. by exists 1.
    + destruct (num_pages p) as [e|np]; [discriminate|].
      intros Hpg. by exists np.
  - intros [= <-]. revert Hp. unfold page, validate_number.
    destruct (py_int v) as [n|] eqn:Hv; [|discriminate].
    intros Hp. exists n. exact Hp.
Qed.

Lemma take_min_length {A} (k : nat) (x : list A) :
  take (Nat.min k (length x)) x = take k x.
Proof.
  destruct (Nat.le_gt_cases k (length x)) as [Hle|Hgt].
  - by rewrite Nat.min_l.
  - rewrite Nat.min_r by lia. rewrite !take_ge by lia. reflexivity.
Qed.

(** A page the paginator yields is the window of [per_page] results that
    starts after the pages before it. *)
Lemma page_window p n pg :
  1 <= per_page p ->
  page p (PyInt n) = inr pg ->
  number pg = n /\ 1 <= n
  /\ page_objects pg
     = take (Z.to_nat (per_page p))
            (drop (Z.to_nat ((n - 1) * per_page p)) (object_list p)).
Proof.
  intros Hl. unfold page, validate_number. cbn [py_int].
  destruct (n <? 1) eqn:E1; [discriminate|].
  destruct (num_pages p) as [e|np] eqn:Hnp; [discriminate|].
  assert (Hres : 0 <= (n - 1) * per_page p <= count p ->
            forall top,
              top = (if (n - 1) * per_page p + per_page p + orphans
                        >=? count p
                     then count p
                     else (n - 1) * per_page p + per_page p) ->
              slice (object_list p) ((n - 1) * per_page p) top
              = take (Z.to_nat (per_page p))
                     (drop (Z.to_nat ((n - 1) * per_page p)) (object_list p))).
  { intros Hb top Htop. unfold slice, slice_index, orphans in *.
    fold (count p). set (b := (n - 1) * per_page p) in *.
    destruct (b <? 0) eqn:Eb; [lia|].
    assert (Ht : 0 <= top /\ Z.min top (count p)
                             = Z.min (b + per_page p) (count p)).
    { subst top. destruct (b + per_page p + 0 >=? count p) eqn:Et; lia. }
    destruct (top <? 0) eqn:Et; [lia|].
    destruct Ht as [_ ->]. rewrite (Z.min_l b) by lia.
    rewrite <- (take_min_length (Z.to_nat (per_page p))).
    f_equal. rewrite length_drop. unfold count in *. lia. }
  destruct (n >? np) eqn:E2.
  - destruct (n =? 1) eqn:E3; cbn [andb allow_empty_first_page];
      [|discriminate].
    intros [= <-]. cbn [number page_objects].
    split; [reflexivity|]. split; [lia|]. apply Hres; [|reflexivity].
    assert (n = 1) as -> by lia. unfold count. lia.
  - intros [= <-]. cbn [number page_objects].
    split; [reflexivity|]. split; [lia|]. apply Hres; [|reflexivity].
    split; [nia|].
    unfold num_pages, allow_empty_first_page, orphans in Hnp.
    rewrite andb_false_r in Hnp.
    destruct (per_page p =? 0); [discriminate|]. injection Hnp as Hnp.
    pose proof (Z.div_mod (- Z.max 1 (count p - 0)) (per_page p)
                  ltac:(lia)) as Hdm.
    pose proof (Z.mod_pos_bound (- Z.max 1 (count p - 0)) (per_page p)
                  ltac:(lia)) as Hmod.
    assert (Hc : 0 <= count p) by (unfold count; lia).
    destruct (Z.eq_dec (count p) 0) as [H0|H0]; nia.
Qed.


End Search.

Section SearchVisibility.
Variable C : Collaborators.
Variable index : list UserProfile.
Variable matches : string -> UserProfile -> bool.





End SearchVisibility.

(** * The handlers at work on the concrete environment *)

Lemma C1_login_before_vouch_witness :
  view_profile 1 (Demo.get_request "/u/bob" []) "bob" (Demo.world None)
  = (inr (HttpResponseRedirect (LoginUrl ("/u/bob", []))),
     mkWorld Demo.table None
             [Message WARNING "You must be logged in to continue."]).
Proof.
  exact (proj1 (C1_login_before_vouch 0 (Demo.get_request "/u/bob" []) "bob"
                  (Demo.world None) eq_refl eq_refl)).
Defined.

(** C2 as stated fails: nobody is registered as ghost, yet an anonymous
    visitor is sent to the login page; carol never completed her profile,
    yet the unvouched bob is sent home with the vouch message.  Neither
    gets Http404. *)
Lemma C2_counterexample :
  (no_completed_profile "ghost" (Demo.world None)
   /\ fst (view_profile 1 (Demo.get_request "/u/ghost" []) "ghost"
                        (Demo.world None))
      = inr (HttpResponseRedirect (LoginUrl ("/u/ghost", [])))
   /\ fst (view_profile 1 (Demo.get_request "/u/ghost" []) "ghost"
                        (Demo.world None))
      <> inl Http404)
  /\ (no_completed_profile "carol" (Demo.world (Some Demo.bob))
      /\ fst (view_profile 1 (Demo.get_request "/u/carol" []) "carol"
                           (Demo.world (Some Demo.bob)))
         = inr (redirect "phonebook:home" [])
      /\ fst (view_profile 1 (Demo.get_request "/u/carol" []) "carol"
                           (Demo.world (Some Demo.bob)))
         <> inl Http404).
Proof.
  assert (Hno : forall name viewer,
            name = "ghost" \/ name = "carol" ->
            no_completed_profile name (Demo.world viewer)).
  { intros name viewer Hname p Hin Hp. cbn in Hin.
    destruct Hin as [<-|[<-|[<-|[<-|[]]]]]; cbn in Hp; subst name;
      destruct Hname as [Hn|Hn]; try discriminate Hn; reflexivity. }
  split; (split; [apply Hno; auto|]); (split; [reflexivity|]);
    cbn; discriminate.
Qed.

Lemma C2_not_found_behind_gate_witness :
  view_profile 1 (Demo.get_request "/u/carol" []) "carol"
               (Demo.world (Some Demo.alice))
  = (inl Http404, Demo.world (Some Demo.alice)).
Proof.
  apply (C2_not_found_behind_gate 0 (Demo.get_request "/u/carol" []) "carol"
           (Demo.world (Some Demo.alice))).
  - intros p Hin Hp. cbn in Hin.
    destruct Hin as [<-|[<-|[<-|[<-|[]]]]]; cbn in Hp;
      try discriminate Hp; reflexivity.
  - reflexivity.
  - right. reflexivity.
Defined.

Lemma C3_instance_privacy_level_witness :
  let ctx : gmap string Value :=
    <["profile" := VProfile (set_instance_privacy_level MOZILLIANS Demo.bob)]>
    (<["shown_user" := VUser (user Demo.bob)]>
     (<["vouch_form" := VVouchForm 2]> ∅)) in
  view_profile 1 (Demo.get_request "/u/bob" []) "bob"
               (Demo.world (Some Demo.alice))
  = (inr (Render "phonebook/profile.html" ctx 200),
     Demo.world (Some Demo.alice))
  /\ ctx !! "profile"
     = Some (VProfile (set_instance_privacy_level MOZILLIANS Demo.bob)).
Proof.
  intros ctx.
  assert (Hrun : view_profile 1 (Demo.get_request "/u/bob" []) "bob"
                              (Demo.world (Some Demo.alice))
                 = (inr (Render "phonebook/profile.html" ctx 200),
                    Demo.world (Some Demo.alice))) by reflexivity.
  split; [exact Hrun|].
  destruct (C3_instance_privacy_level 0 (Demo.get_request "/u/bob" []) "bob"
              (Demo.world (Some Demo.alice)) "phonebook/profile.html" ctx 200
              (Demo.world (Some Demo.alice)) eq_refl Hrun)
    as (row & Hrow & Hctx & _).
  injection Hrow as <-. exact Hctx.
Defined.

Lemma C4_owner_view_as_anonymous_witness :
  view_profile 1 (Demo.get_request "/u/alice" [("view_as", "anonymous")])
               "alice" (Demo.world (Some Demo.alice))
  = (inr (render "phonebook/profile.html"
            (<["profile" := VProfile (set_instance_privacy_level PUBLIC Demo.alice)]>
             (<["shown_user" := VUser (user Demo.alice)]>
              (<["privacy_mode" := VStr "anonymous"]> ∅)))),
     Demo.world (Some Demo.alice)).
Proof.
  exact (proj2 (C4_owner_view_as_anonymous 0
                  (Demo.get_request "/u/alice" [("view_as", "anonymous")])
                  "alice" (Demo.world (Some Demo.alice)) Demo.alice Demo.alice
                  eq_refl eq_refl eq_refl eq_refl)).
Defined.

Lemma C10_other_view_as_is_myself_witness :
  view_profile 1 (Demo.get_request "/u/alice" [("view_as", "Employee")])
               "alice" (Demo.world (Some Demo.alice))
  = (inr (render "phonebook/profile.html"
            (<["profile" := VProfile Demo.alice]>
             (<["shown_user" := VUser (user Demo.alice)]>
              (<["privacy_mode" := VStr "Employee"]> ∅)))),
     Demo.world (Some Demo.alice)).
Proof.
  apply (C10_other_view_as_is_myself 0
           (Demo.get_request "/u/alice" [("view_as", "Employee")])
           "alice" (Demo.world (Some Demo.alice)) Demo.alice);
    first [reflexivity | cbn; discriminate].
Defined.

Lemma C5_delete_order_witness :
  delete (Demo.post_request "/delete" []) (Demo.world (Some Demo.bob))
  = (inr (redirect "phonebook:home" []),
     mkWorld
       [Demo.alice;
        mkProfile 2 (mkUser 12 "anonymous-user" "") "" false None "" None;
        Demo.carol; Demo.dave]
       None
       [ Delay (unindex_objects [2] false);
         Delay (unindex_objects [2] true);
         Delay (remove_from_basket_task "bob@example.org" "tok-b");
         Anonymize 2;
         LogInfo "Deleting %d" 12;
         Logout ]).
Proof.
  exact (C5_delete_order (Demo.post_request "/delete" [])
           (Demo.world (Some Demo.bob)) Demo.bob eq_refl eq_refl).
Defined.

Lemma C9_edit_profile_status_witness :
  (exists data,
     edit_profile (Demo.post_request "/edit" [("username", "bobby")])
                  (Demo.world (Some Demo.bob))
     = (inr (Render "phonebook/edit_profile.html" data 400),
        Demo.world (Some Demo.bob)))
  /\ fst (edit_profile
            (Demo.post_request "/edit"
               [("username", "bobby"); ("full_name", "Bob B.")])
            (Demo.world (Some Demo.bob)))
     = inr (HttpResponseRedirect (Reverse "phonebook:profile_view" ["bobby"])).
Proof.
  split.
  - destruct (proj1 (@C9_edit_profile_status Demo.env
                       (Demo.post_request "/edit" [("username", "bobby")])
                       (Demo.world (Some Demo.bob)) Demo.bob Demo.bob
                       eq_refl eq_refl) ltac:(right; vm_compute; reflexivity))
      as (data & Hrun & _).
    exists data. exact Hrun.
  - exact (proj2 (@C9_edit_profile_status Demo.env
                    (Demo.post_request "/edit"
                       [("username", "bobby"); ("full_name", "Bob B.")])
                    (Demo.world (Some Demo.bob)) Demo.bob Demo.bob
                    eq_refl eq_refl)
                 ltac:(vm_compute; reflexivity) ltac:(vm_compute; reflexivity)).
Defined.

Lemma C6_single_result_redirect_witness :
  search (Demo.get_request "/search" [("q", "da"); ("page", "7")])
         (Demo.world None)
  = (inr (redirect "phonebook:profile_view" ["dave"]), Demo.world None).
Proof.
  apply (@C6_single_result_redirect Demo.env
           (Demo.get_request "/search" [("q", "da"); ("page", "7")])
           (mkCleaned (Some "da") 20 false) (Demo.world None) Demo.dave
           eq_refl).
  - simpl. lia.
  - reflexivity.
  - intros Hpub. discriminate Hpub.
Defined.

Lemma C8_page_fallback_witness :
  (exists response pg,
     search (Demo.get_request "/search" [("q", ""); ("page", "abc")])
            (Demo.world (Some Demo.alice))
     = (inr response, Demo.world (Some Demo.alice))
     /\ number pg = 1 /\ people_shown response pg)
  /\ (exists response pg,
        search (Demo.get_request "/search"
                  [("q", ""); ("limit", "1"); ("page", "9999")])
               (Demo.world (Some Demo.alice))
        = (inr response, Demo.world (Some Demo.alice))
        /\ number pg = 2 /\ people_shown response pg).
Proof.
  split.
  - destruct (@C8_page_fallback Demo.env
                (Demo.get_request "/search" [("q", ""); ("page", "abc")])
                (mkCleaned (Some "") 20 false) (Demo.world (Some Demo.alice))
                eq_refl ltac:(simpl; lia))
      as (response & last & Hrun & _ & _ & Hnone & _).
    destruct (Hnone eq_refl) as (pg & _ & Hnum & Hshown).
    exists response, pg. split; [exact Hrun|]. split; assumption.
  - destruct (@C8_page_fallback Demo.env
                (Demo.get_request "/search"
                   [("q", ""); ("limit", "1"); ("page", "9999")])
                (mkCleaned (Some "") 1 false) (Demo.world (Some Demo.alice))
                eq_refl ltac:(simpl; lia))
      as (response & last & Hrun & Hlast & _ & _ & Hout).
    injection Hlast as <-.
    destruct (Hout 9999 eq_refl ltac:(right; reflexivity))
      as (pg & _ & Hnum & Hshown).
    exists response, pg. split; [exact Hrun|]. split; assumption.
Defined.


(** For a vouched viewer the flag does change the results: alice finds
    the unvouched bob only with the flag on. *)
Example vouched_viewer_flag_matters :
  fst (@search (with_spec_search Demo.env Demo.table Demo.matches)
         (Demo.get_request "/search" [("q", "b"); ("include_non_vouched", "on")])
         (Demo.world (Some Demo.alice)))
  = inr (redirect "phonebook:profile_view" ["bob"])
  /\ exists ctx,
       fst (@search (with_spec_search Demo.env Demo.table Demo.matches)
              (Demo.get_request "/search" [("q", "b")])
              (Demo.world (Some Demo.alice)))
       = inr (Render "phonebook/search.html" ctx 200)
       /\ ctx !! "people"
          = Some (VPage (mkPage [] 1 (mkPaginator [] 20))).
Proof. split; [reflexivity|]. eexists. split; reflexivity. Qed.

(** * Further properties of the handlers *)

Section ViewProfileMore.
Context `{Collaborators}.

(** [view_profile] for a viewer who is not the owner, as a function of
    the world. *)
Lemma view_profile_non_owner_run fuel request uname w :
  is_owner w uname = false ->
  view_profile (S fuel) request uname w =
    let query := filter_username uname (mkQuerySet (db w) None) in
    if negb (exists_ (public query))
       && negb (is_authenticated (request_user w)) then
      (inr (HttpResponseRedirect (LoginUrl (get_full_path request))),
       flash w [Message WARNING LOGIN_MESSAGE])
    else if negb (exists_ (public query)) && negb (viewer_vouched w) then
      (inr (redirect "phonebook:home" []),
       flash w [Message ERROR GET_VOUCHED_MESSAGE])
    else if negb (exists_ query)
            || negb (exists_ (exclude_empty_full_name query)) then
      (inl Http404, w)
    else
      match get query with
      | inl e => (inl e, w)
      | inr row =>
          let data : gmap string Value :=
            if negb (is_vouched row) && viewer_vouched w
            then <["vouch_form" := VVouchForm (pk row)]> ∅
            else ∅ in
          (inr (render "phonebook/profile.html"
                  (<["profile" :=
                       VProfile (set_instance_privacy_level (viewer_level w) row)]>
                   (<["shown_user" := VUser (user row)]> data))), w)
      end.
Proof.
  intros Hown. rewrite view_profile_fuel. unfold is_owner in Hown.
  destruct w as [d u t]. cbn [request_user] in Hown.
  unfold viewer_vouched, viewer_level, flash. cbn [view_profile].
  unfold view_profile_body, login_required, render_profile. unfold_monad.
  cbv beta iota zeta delta [db request_user trace].
  rewrite Hown.
  destruct (exists_ (public _)); cbn [negb andb];
    destruct u as [v|]; cbn [is_authenticated negb];
    try destruct (is_vouched v) eqn:Ev; cbn [negb andb]; try reflexivity.
  all: destruct (negb (exists_ _) || _); try reflexivity.
  all: cbv beta iota zeta delta [db request_user trace is_authenticated].
  all: destruct (get _) as [e|row]; [reflexivity|].
  all: try (destruct v as [? ? ? vouched_v ? ? ?]; cbn in Ev; subst vouched_v).
  all: destruct row as [? ? ? [|] ? ? ?]; reflexivity.
Qed.


(** [view_profile] for the owner, as a function of the world. *)
Lemma view_profile_owner_run fuel request uname w me :
  request_user w = Some me ->
  username (user me) = uname ->
  view_profile (S fuel) request uname w =
    let view_as := default "myself" (QueryDict_get (GET request) "view_as") in
    let shown (p : UserProfile) : gmap string Value :=
      <["profile" := VProfile p]>
      (<["shown_user" := VUser (user p)]>
       (<["privacy_mode" := VStr view_as]> ∅)) in
    match tier_of_view_as view_as with
    | Some level =>
        match get (filter_username uname
                     (qs_with_privacy_level level (mkQuerySet (db w) None)))
        with
        | inl e => (inl e, w)
        | inr p => (inr (render "phonebook/profile.html" (shown p)), w)
        end
    | None => (inr (render "phonebook/profile.html" (shown me)), w)
    end.
Proof.
  intros Hu Hme. rewrite view_profile_fuel.
  destruct w as [d u t]. cbn [request_user] in Hu. subst u uname.
  cbn [view_profile]. unfold view_profile_body, render_profile, tier_of_view_as.
  unfold_monad. cbv beta iota zeta delta [db request_user trace].
  cbn [is_authenticated request_username andb]. rewrite String.eqb_refl.
  destruct (String.eqb _ "anonymous");
    [|destruct (String.eqb _ "mozillian");
      [|destruct (String.eqb _ "employee");
        [|destruct (String.eqb _ "privileged")]]].
  all: try (destruct (get _); reflexivity).
  reflexivity.
Qed.

(** X1: an authenticated viewer who is not vouched and asks for somebody
    else's profile that has no public row is sent home, with the
    vouch-required message at error level as the only effect. *)
Theorem X1_unvouched_viewer_sent_home fuel request uname w viewer :
  request_user w = Some viewer ->
  is_vouched viewer = false ->
  username (user viewer) <> uname ->
  public_rows uname w = [] ->
  view_profile (S fuel) request uname w =
    (inr (redirect "phonebook:home" []),
     flash w [Message ERROR GET_VOUCHED_MESSAGE]).
Proof.
  intros Hu Hv Hname Hpub.
  assert (Hown : is_owner w uname = false).
  { unfold is_owner. rewrite Hu. cbn. by apply String.eqb_neq. }
  rewrite (view_profile_non_owner_run _ _ _ _ Hown). cbv zeta.
  unfold public_rows, rows_named in Hpub.
  unfold exists_, public, filter_username, qs_filter, viewer_vouched.
  cbn [rows]. rewrite Hpub, Hu, Hv. reflexivity.
Qed.

(** X2: [view_profile] never writes: whatever the request, the table and
    the identity attached to the request are as before, and the only
    thing logged is the flash message that belongs to the answer (the
    login message with the login redirect, the vouch message with the
    redirect home, nothing with a page, a 404 or a failed query). *)
Theorem X2_view_profile_read_only fuel request uname w :
  snd (view_profile (S fuel) request uname w)
  = flash w (flash_of (fst (view_profile (S fuel) request uname w))).
Proof.
  assert (Hid : flash w [] = w).
  { destruct w. unfold flash. cbn. by rewrite app_nil_r. }
  destruct (is_owner w uname) eqn:Hown.
  - unfold is_owner in Hown. apply andb_true_iff in Hown as [Hauth Hname].
    destruct (request_user w) as [me|] eqn:Hu; [|discriminate].
    apply String.eqb_eq in Hname. cbn in Hname.
    rewrite (view_profile_owner_run _ _ _ _ me Hu Hname). cbv zeta.
    destruct (tier_of_view_as _); [destruct (get _)|]; cbn; by rewrite Hid.
  - rewrite (view_profile_non_owner_run _ _ _ _ Hown). cbv zeta.
    repeat (match goal with
            | |- context [if ?b then _ else _] => destruct b
            | |- context [match get ?q with _ => _ end] => destruct (get q)
            end; try (cbn; by rewrite ?Hid)).
Qed.

(** X3: on a page rendered for a viewer who is not the owner, the vouch
    form is offered exactly when the shown profile is not vouched and the
    viewer is authenticated and vouched; it is then pre-filled with the
    primary key of the shown profile. *)
Theorem X3_vouch_form_offered fuel request uname w template ctx status w' :
  is_owner w uname = false ->
  view_profile (S fuel) request uname w
    = (inr (Render template ctx status), w') ->
  exists row,
    rows_named uname w = [row]
    /\ ctx !! "vouch_form"
       = (if negb (is_vouched row) && viewer_vouched w
          then Some (VVouchForm (pk row)) else None)
    /\ ctx !! "shown_user" = Some (VUser (user row))
    /\ ctx !! "privacy_mode" = None.
Proof.
  intros Hown. rewrite (view_profile_non_owner_run _ _ _ _ Hown). cbv zeta.
  destruct (_ && _); [discriminate|]. destruct (_ && _); [discriminate|].
  destruct (_ || _); [discriminate|].
  unfold get, filter_username, qs_filter, rows_named. cbn [rows].
  destruct (List.filter _ (db w)) as [|row [|row2 rest]]; try discriminate.
  intros E. injection E as <- <- <- <-. exists row. split; [reflexivity|].
  cbn [fetched is_vouched pk user set_instance_privacy_level].
  destruct (negb (is_vouched row) && viewer_vouched w);
    repeat split; by simplify_map_eq.
Qed.

(** X4: the owner asking for one of the four recognised previews gets the
    stored record of their username at the privacy level of that preview
    (anonymous: PUBLIC, mozillian: MOZILLIANS, employee: EMPLOYEES,
    privileged: PRIVILEGED), with the value in [privacy_mode]. *)
Theorem X4_owner_preview_tiers fuel request uname w me row view_as level :
  request_user w = Some me ->
  username (user me) = uname ->
  QueryDict_get (GET request) "view_as" = Some view_as ->
  tier_of_view_as view_as = Some level ->
  rows_named uname w = [row] ->
  view_profile (S fuel) request uname w =
    (inr (render "phonebook/profile.html"
            (<["profile" := VProfile (set_instance_privacy_level level row)]>
             (<["shown_user" := VUser (user row)]>
              (<["privacy_mode" := VStr view_as]> ∅)))), w).
Proof.
  intros Hu Hme Hview Htier Hrows.
  rewrite (view_profile_owner_run _ _ _ _ me Hu Hme). cbv zeta.
  rewrite Hview. change (default "myself" (Some view_as)) with view_as.
  rewrite Htier.
  unfold get, filter_username, qs_filter, qs_with_privacy_level, rows_named
    in *. cbn [rows] in *.
  rewrite Hrows. reflexivity.
Qed.

(** X5: the owner is never answered with a redirect or a 404 and never
    gets a flash message: the answer is the profile page, or the failure
    of the preview query when the table has no single row under the
    username. *)
Theorem X5_owner_never_turned_away fuel request uname w me :
  request_user w = Some me ->
  username (user me) = uname ->
  snd (view_profile (S fuel) request uname w) = w
  /\ ((exists ctx, fst (view_profile (S fuel) request uname w)
                   = inr (Render "phonebook/profile.html" ctx 200))
      \/ (rows_named uname w = []
          /\ fst (view_profile (S fuel) request uname w) = inl DoesNotExist)
      \/ (2 <= length (rows_named uname w))%nat
          /\ fst (view_profile (S fuel) request uname w)
             = inl MultipleObjectsReturned).
Proof.
  intros Hu Hme. rewrite (view_profile_owner_run _ _ _ _ me Hu Hme). cbv zeta.
  destruct (tier_of_view_as _) as [level|]; [|split; [done|left; by eexists]].
  unfold get, filter_username, qs_filter, qs_with_privacy_level, rows_named.
  cbn [rows].
  destruct (List.filter _ (db w)) as [|row [|row2 rest]]; cbn.
  - split; [done|]. right. left. done.
  - split; [done|]. left. by eexists.
  - split; [done|]. right. right. split; [lia|done].
Qed.

(** X6: a viewer who is not the owner gets the page whenever the username
    has exactly one row, that row has a full name, and the gate is open
    (a public row exists, or the viewer is authenticated and vouched);
    the page shows the row at the viewer's level and nothing is logged. *)
Theorem X6_non_owner_sees_profile fuel request uname w row :
  is_owner w uname = false ->
  rows_named uname w = [row] ->
  full_name row <> "" ->
  public_q row = true \/ viewer_vouched w = true ->
  view_profile (S fuel) request uname w =
    (inr (render "phonebook/profile.html"
            (<["profile" :=
                 VProfile (set_instance_privacy_level (viewer_level w) row)]>
             (<["shown_user" := VUser (user row)]>
              (if negb (is_vouched row) && viewer_vouched w
               then <["vouch_form" := VVouchForm (pk row)]> ∅
               else ∅)))), w).
Proof.
  intros Hown Hrows Hfull Hgate.
  rewrite (view_profile_non_owner_run _ _ _ _ Hown). cbv zeta.
  unfold rows_named in Hrows.
  unfold get, exists_, public, exclude_empty_full_name, filter_username,
    qs_filter. cbn [rows]. rewrite Hrows. cbn [List.filter].
  apply String.eqb_neq in Hfull. rewrite Hfull. cbn [negb orb].
  destruct Hgate as [Hpub|Hv].
  - rewrite Hpub. reflexivity.
  - rewrite Hv. cbn [negb]. rewrite !andb_false_r.
    unfold viewer_vouched in Hv.
    destruct (request_user w); [|discriminate]. cbn.
    rewrite andb_false_r. reflexivity.
Qed.

End ViewProfileMore.

Section EditDeleteMore.
Context `{Collaborators} `{MoreCollaborators}.

(** X7: a request without form data (a GET: empty POST and FILES) shows
    the edit page with status 200 and two unbound, error-free forms on
    the stored user and profile; nothing is saved or logged. *)
Theorem X7_edit_profile_unbound request w ru row :
  request_user w = Some ru ->
  List.filter (fun p => id (user p) =? id (user ru)) (db w) = [row] ->
  POST request = [] ->
  FILES request = [] ->
  let profile := fetched (mkQuerySet (db w) None) row in
  exists data,
    edit_profile request w
      = (inr (Render "phonebook/edit_profile.html" data 200), w)
    /\ data !! "user_form" = Some (VUserForm (mkForm false [] (user row)))
    /\ data !! "profile_form"
       = Some (VProfileForm (negb (is_complete profile))
                            (mkForm false [] profile))
    /\ data !! "profile" = Some (VProfile ru).
Proof.
  intros Hu Hrows Hpost Hfiles profile.
  destruct w as [d u t]; cbn in Hu, Hrows; subst u.
  eexists. split.
  - unfold edit_profile. unfold_monad.
    cbv beta iota delta [db request_user trace].
    unfold get, qs_filter. cbn [rows]. rewrite Hrows, Hpost, Hfiles.
    cbn [or_None UserForm ProfileForm is_valid is_bound andb has_errors
         errors orb]. reflexivity.
  - repeat split; by simplify_map_eq.
Qed.

(** X8: when both forms are valid, [edit_profile] saves the user, then
    the profile, then for a profile completed by this submission calls
    [update_invites] and announces the new account, otherwise announces
    a changed username if it changed, and redirects to the saved
    username.  The stored profiles are the table with the two saves
    applied and the user on the request is as before, except that for a
    new profile both are what [update_invites] leaves of them.  The
    profile save is stated for the columns of the profile's own row. *)
Theorem X8_edit_profile_success request w ru row :
  request_user w = Some ru ->
  List.filter (fun p => id (user p) =? id (user ru)) (db w) = [row] ->
  let profile := fetched (mkQuerySet (db w) None) row in
  let user_form := UserForm (or_None (POST request)) (user profile) in
  let new_profile := negb (is_complete profile) in
  let profile_form :=
    ProfileForm new_profile (or_None (POST request)) (or_None (FILES request))
                profile in
  let saved_user := instance user_form in
  let saved_profile := instance profile_form in
  let saved :=
    map (fun r => if pk r =? pk saved_profile
                  then with_user (user r) saved_profile else r)
        (map (fun r => if id (user r) =? id saved_user
                       then with_user saved_user r else r) (db w)) in
  let redeemed := invite_redeemed request saved (Some ru) in
  is_valid user_form = true ->
  is_valid profile_form = true ->
  exists events,
    edit_profile request w =
      (inr (HttpResponseRedirect
              (Reverse "phonebook:profile_view" [username saved_user])),
       mkWorld (if new_profile then fst redeemed else saved)
               (if new_profile then snd redeemed else Some ru)
               (trace w ++ events))
    /\ map event_columns events =
         ([SaveUser saved_user; SaveProfile (own_columns saved_profile)]
          ++ (if new_profile then
                [UpdateInvites; Message INFO "Your account has been created."]
              else if negb (String.eqb (username saved_user)
                                       (username (user ru))) then
                [Message INFO
                   "You changed your username; please note your profile URL has also changed."]
              else []))%list.
Proof.
  intros Hu Hrows profile user_form new_profile profile_form saved_user
    saved_profile saved redeemed Hv1 Hv2.
  destruct w as [d u t]; cbn in Hu, Hrows; subst u.
  assert (Hget : get (qs_filter (fun p => id (user p) =? id (user ru))
                                (mkQuerySet d None)) = inr profile).
  { unfold get, qs_filter. cbn. rewrite Hrows. reflexivity. }
  unfold edit_profile. unfold_monad.
  cbv beta iota delta [db request_user trace].
  rewrite Hget. fold profile. fold user_form. fold new_profile.
  fold profile_form. rewrite Hv1, Hv2. cbn [andb].
  unfold save_user, save_profile, update_invites. unfold_monad.
  cbv beta iota delta [db request_user trace].
  fold saved_user. fold saved_profile. cbn [request_username].
  cbv beta iota delta [db] in saved. fold saved. fold redeemed.
  destruct new_profile; [|destruct (negb _)];
    cbv beta iota delta [db request_user trace];
    repeat rewrite <- app_assoc; eexists; (split; [reflexivity|]);
    reflexivity.
Qed.

(** X9: without an authenticated user [edit_profile] fails with
    DoesNotExist before anything is read from the submission. *)
Theorem X9_edit_profile_anonymous request w :
  request_user w = None ->
  edit_profile request w = (inl DoesNotExist, w).
Proof.
  intros Hu. destruct w as [d u t]; cbn in Hu; subst u. reflexivity.
Qed.

(** X10: [delete] and [vouch] act on POST only: with any other method
    the answer is 405 with POST as the permitted method and the world
    is as before, whoever asks and whatever is sent. *)
Theorem X10_post_only request w :
  method request <> "POST" ->
  delete request w = (inr (HttpResponseNotAllowed ["POST"]), w)
  /\ vouch request w = (inr (Responded (HttpResponseNotAllowed ["POST"])), w).
Proof.
  intros Hm. apply String.eqb_neq in Hm.
  unfold delete, require_POST, vouch. rewrite Hm. split; reflexivity.
Qed.

Lemma delete_anonymous_run request w :
  method request = "POST" ->
  request_user w = None ->
  delete request w = (inl AttributeError, w).
Proof.
  intros Hm Hu. destruct w as [d u t]; cbn in Hu; subst u.
  unfold delete, require_POST. rewrite Hm.
  change (String.eqb "POST" "POST") with true. reflexivity.
Qed.

Lemma delete_logs_out request w me :
  method request = "POST" ->
  request_user w = Some me ->
  request_user (snd (delete request w)) = None.
Proof.
  intros Hm Hu. destruct w as [d u t]; cbn in Hu; subst u.
  unfold delete, require_POST. rewrite Hm.
  change (String.eqb "POST" "POST") with true. reflexivity.
Qed.

(** X11: a POST to [delete] without an authenticated user fails with
    AttributeError at the first statement: no task is queued and nothing
    is anonymized. *)
Theorem X11_delete_anonymous request w :
  method request = "POST" ->
  request_user w = None ->
  delete request w = (inl AttributeError, w).
Proof.
  apply delete_anonymous_run.
Qed.

(** X12: [delete] ends the session for good: repeating the same POST in
    the world the first one left fails with AttributeError and queues,
    anonymizes and logs nothing more. *)
Theorem X12_delete_twice request w me :
  method request = "POST" ->
  request_user w = Some me ->
  delete request (snd (delete request w))
  = (inl AttributeError, snd (delete request w)).
Proof.
  intros Hm Hu. apply delete_anonymous_run; [exact Hm|].
  exact (delete_logs_out request w me Hm Hu).
Qed.

End EditDeleteMore.

Section SearchMore.
Context `{Collaborators}.

(** The context [search] renders from its local variables. *)
Lemma search_run request w :
  search request w =
    match
      match SearchForm_clean (GET request) with
      | Some cleaned => search_valid request cleaned w
      | None => (inr (inr (mkLocals 0 None (VProfiles []) false None None)), w)
      end
    with
    | (inl e, w') => (inl e, w')
    | (inr (inl response), w') => (inr response, w')
    | (inr (inr l), w') =>
        (inr (render (if is_ajax request then "search_ajax.html"
                      else "phonebook/search.html")
                (<["people" := l_people l]>
                 (<["search_form" :=
                      VSearchForm (GET request) (SearchForm_clean (GET request))]>
                 (<["limit" := opt_value VInt (l_limit l)]>
                 (<["show_pagination" := VBool (l_show_pagination l)]>
                 (<["num_pages" := VInt (l_num_pages l)]>
                 (<["groups" := opt_value VGroups (l_groups l)]>
                 (<["curated_groups" :=
                      opt_value VGroups (l_curated_groups l)]> ∅)))))))), w')
    end.
Proof.
  unfold search, bind.
  destruct (SearchForm_clean (GET request)) as [cleaned|].
  - destruct (search_valid request cleaned w) as [[e|[response|l]] w'];
      try reflexivity.
    destruct (is_ajax request); reflexivity.
  - unfold ret. destruct (is_ajax request); reflexivity.
Qed.

Lemma search_valid_world request cleaned w :
  snd (search_valid request cleaned w) = w.
Proof.
  rewrite search_valid_run. cbv zeta.
  destruct (page_or_fallback _ _); [reflexivity|].
  destruct (_ && _); [destruct (page_first _); reflexivity|].
  destruct (_ >? _); [destruct (page_range_len _)|]; reflexivity.
Qed.

(** X13: [search] never writes: whatever is asked and whoever asks, and
    also when it fails, the table, the identity attached to the request
    and the log are as before. *)
Theorem X13_search_read_only request w :
  snd (search request w) = w.
Proof.
  rewrite search_run.
  destruct (SearchForm_clean (GET request)) as [cleaned|]; [|reflexivity].
  pose proof (search_valid_world request cleaned w) as Hw.
  destruct (search_valid request cleaned w) as [[e|[response|l]] w'];
    exact Hw.
Qed.

(** X14: a submission the form rejects is not searched at all: the page
    is rendered with no people, no limit, no groups and no pagination,
    as the partial template for an in-page request and the full one
    otherwise, and the rejected form is handed back. *)
Theorem X14_search_invalid_form request w :
  SearchForm_clean (GET request) = None ->
  exists ctx,
    search request w
    = (inr (Render (if is_ajax request then "search_ajax.html"
                    else "phonebook/search.html") ctx 200), w)
    /\ ctx !! "people" = Some (VProfiles [])
    /\ ctx !! "limit" = Some VNone
    /\ ctx !! "groups" = Some VNone
    /\ ctx !! "curated_groups" = Some VNone
    /\ ctx !! "show_pagination" = Some (VBool false)
    /\ ctx !! "num_pages" = Some (VInt 0)
    /\ ctx !! "search_form" = Some (VSearchForm (GET request) None).
Proof.
  intros Hclean. rewrite search_run, Hclean. eexists.
  split; [reflexivity|]. repeat split; by simplify_map_eq.
Qed.

(** X15: on a results page groups are searched only for a vouched viewer:
    an unauthenticated or unvouched viewer gets no group results at all,
    a vouched one the result of the group search; the curated groups and
    the limit are passed on in both cases. *)
Theorem X15_search_groups_for_vouched_only
    request cleaned w template ctx status w' :
  SearchForm_clean (GET request) = Some cleaned ->
  search request w = (inr (Render template ctx status), w') ->
  ctx !! "groups"
  = Some (if viewer_public w then VNone
          else VGroups (Group_search (default "" (q cleaned))))
  /\ ctx !! "curated_groups" = Some (VGroups Group_get_curated)
  /\ ctx !! "limit" = Some (VInt (limit cleaned))
  /\ template = (if is_ajax request then "search_ajax.html"
                 else "phonebook/search.html")
  /\ status = 200.
Proof.
  intros Hclean. rewrite search_run, Hclean, search_valid_run. cbv zeta.
  destruct (page_or_fallback _ _) as [e|people]; [discriminate|].
  destruct (_ && _); [destruct (page_first _); discriminate|].
  destruct (_ >? _); [destruct (page_range_len _); [discriminate|]|];
    intros [= <- <- <- <-]; destruct (viewer_public w);
    repeat split; by simplify_map_eq.
Qed.

(** X16: the pagination controls are shown exactly when the number of
    results exceeds PAGINATION_LIMIT, whatever the page size is; the
    number of pages handed to the template is then the paginator's, and
    0 otherwise. *)
Theorem X16_search_pagination_shown
    request cleaned w template ctx status w' :
  SearchForm_clean (GET request) = Some cleaned ->
  search request w = (inr (Render template ctx status), w') ->
  let paginator_ :=
    mkPaginator (UserProfile_search (default "" (q cleaned)) (viewer_public w)
                                    (include_non_vouched cleaned))
                (limit cleaned) in
  ctx !! "show_pagination" = Some (VBool (count paginator_ >? PAGINATION_LIMIT))
  /\ if count paginator_ >? PAGINATION_LIMIT
     then exists np, num_pages paginator_ = inr np
                     /\ ctx !! "num_pages" = Some (VInt (Z.max 0 np))
     else ctx !! "num_pages" = Some (VInt 0).
Proof.
  intros Hclean. rewrite search_run, Hclean, search_valid_run. cbv zeta.
  destruct (page_or_fallback _ _) as [e|people] eqn:Hpeople; [discriminate|].
  destruct (_ && _); [destruct (page_first _); discriminate|].
  assert (Hpag : paginator people
                 = mkPaginator
                     (UserProfile_search (default "" (q cleaned))
                        (viewer_public w) (include_non_vouched cleaned))
                     (limit cleaned)).
  { destruct (page_or_fallback_page _ _ _ Hpeople) as (n & Hn).
    exact (page_paginator _ _ _ Hn). }
  destruct (_ >? _).
  - unfold page_range_len. rewrite Hpag.
    destruct (num_pages _) as [e|np]; [discriminate|].
    intros [= <- <- <- <-]. split; [by simplify_map_eq|].
    exists np. split; [reflexivity | by simplify_map_eq].
  - intros [= <- <- <- <-]. split; by simplify_map_eq.
Qed.

(** X17: whatever page is asked for, a valid submission is answered with
    a genuine page of the results: its number is at least 1, and it holds
    the results that follow the [limit] times (number - 1) results of the
    pages before it, at most [limit] of them and in the order of the
    search. *)
Theorem X17_search_page_window request cleaned w response w' :
  SearchForm_clean (GET request) = Some cleaned ->
  1 <= limit cleaned ->
  search request w = (inr response, w') ->
  exists pg,
    people_shown response pg
    /\ 1 <= number pg
    /\ page_objects pg
       = take (Z.to_nat (limit cleaned))
              (drop (Z.to_nat ((number pg - 1) * limit cleaned))
                    (UserProfile_search (default "" (q cleaned))
                       (viewer_public w) (include_non_vouched cleaned))).
Proof.
  intros Hclean Hl. rewrite search_run, Hclean, search_valid_run. cbv zeta.
  destruct (page_or_fallback _ _) as [e|people] eqn:Hpeople; [discriminate|].
  destruct (page_or_fallback_page _ _ _ Hpeople) as (n & Hn).
  destruct (page_window (mkPaginator _ (limit cleaned)) n people Hl Hn)
    as (Hnum & Hpos & Hobj).
  cbn [object_list per_page] in Hobj. rewrite <- Hnum in Hobj, Hpos.
  destruct (_ && _).
  - destruct (page_first people) as [e|first] eqn:Hfirst; [discriminate|].
    intros [= <- <-]. exists people. split; [|done].
    cbn. exists first. done.
  - destruct (_ >? _); [destruct (page_range_len _); [discriminate|]|];
      intros [= <- <-]; exists people; (split; [|done]);
      cbn; by simplify_map_eq.
Qed.

(** X18: the single-result shortcut is not taken when a group matches:
    a vouched viewer whose query finds one profile and at least one group
    gets the results page with that profile and the groups. *)
Theorem X18_search_group_blocks_shortcut request cleaned w p g gs :
  SearchForm_clean (GET request) = Some cleaned ->
  1 <= limit cleaned ->
  viewer_public w = false ->
  UserProfile_search (default "" (q cleaned)) false
                     (include_non_vouched cleaned) = [p] ->
  Group_search (default "" (q cleaned)) = g :: gs ->
  exists ctx pg,
    search request w
    = (inr (Render (if is_ajax request then "search_ajax.html"
                    else "phonebook/search.html") ctx 200), w)
    /\ ctx !! "people" = Some (VPage pg)
    /\ page_objects pg = [p]
    /\ ctx !! "groups" = Some (VGroups (g :: gs)).
Proof.
  intros Hclean Hl Hpub Hsearch Hgroups.
  rewrite search_run, Hclean, search_valid_run. cbv zeta.
  rewrite Hpub, Hsearch, Hgroups. cbn [negb groups_truthy andb].
  rewrite andb_false_r.
  set (page_ := match QueryDict_get _ _ with Some s => PyText s | None => _ end).
  destruct (page_or_fallback_total (mkPaginator [p] (limit cleaned)) page_ Hl)
    as (pg & np & Hpg & Hnp & _ & _ & _ & _ & Hpag & Hobj).
  rewrite Hpg. specialize (Hobj p eq_refl).
  destruct (_ >? _).
  - unfold page_range_len. rewrite Hpag, Hnp.
    eexists _, pg. split; [reflexivity|]. repeat split; by simplify_map_eq.
  - eexists _, pg. split; [reflexivity|]. repeat split; by simplify_map_eq.
Qed.

(** X19: the page size is not checked by [search] itself: if the form
    lets a limit of 0 through, every such submission fails with
    ZeroDivisionError, whatever page is asked for. *)
Theorem X19_search_limit_zero request cleaned w :
  SearchForm_clean (GET request) = Some cleaned ->
  limit cleaned = 0 ->
  search request w = (inl ZeroDivisionError, w).
Proof.
  intros Hclean H0. rewrite search_run, Hclean, search_valid_run. cbv zeta.
  rewrite H0.
  set (p := mkPaginator _ 0).
  assert (Hnp : num_pages p = inl ZeroDivisionError).
  { unfold num_pages, allow_empty_first_page. rewrite andb_false_r.
    reflexivity. }
  assert (Hpage : forall v, page_or_fallback p v = inl ZeroDivisionError).
  { intros v. unfold page_or_fallback, page, validate_number.
    destruct (py_int v) as [n|]; cbn [py_int].
    - destruct (n <? 1); rewrite Hnp; reflexivity.
    - change (1 <? 1) with false. cbv iota. rewrite Hnp. reflexivity. }
  rewrite Hpage. reflexivity.
Qed.

End SearchMore.

Section OtherHandlers.
Context `{Collaborators} `{MoreCollaborators}.

(** A key sent last decides what [QueryDict.get] yields. *)
Lemma QueryDict_get_app_last (query : QueryDict) key value :
  QueryDict_get (query ++ [(key, value)])%list key = Some value.
Proof.
  induction query as [|[k v] rest IH]; cbn.
  - by rewrite String.eqb_refl.
  - by rewrite IH.
Qed.

(** X20: [login] and the edit page agree on what a complete profile is:
    a user whose stored profile is incomplete is sent to the edit page,
    and the edit page then presents the registration form; a user with a
    complete profile is sent home, and the edit page would present the
    ordinary profile form. *)
Theorem X20_login_matches_edit_form request edit_request w ru row :
  request_user w = Some ru ->
  List.filter (fun p => id (user p) =? id (user ru)) (db w) = [row] ->
  fetched (mkQuerySet (db w) None) row = ru ->
  POST edit_request = [] ->
  FILES edit_request = [] ->
  login request w
  = (inr (redirect (if is_complete ru then "phonebook:home"
                    else "phonebook:profile_edit") []), w)
  /\ exists data,
       edit_profile edit_request w
       = (inr (Render "phonebook/edit_profile.html" data 200), w)
       /\ data !! "profile_form"
          = Some (VProfileForm (negb (is_complete ru)) (mkForm false [] ru)).
Proof.
  intros Hu Hrows Hrow Hpost Hfiles.
  destruct w as [d u t]; cbn in Hu, Hrows, Hrow; subst u. split.
  - unfold login. unfold_monad. cbv beta iota delta [db request_user trace].
    destruct (is_complete ru); reflexivity.
  - eexists. split.
    + unfold edit_profile. unfold_monad.
      cbv beta iota delta [db request_user trace].
      unfold get, qs_filter. cbn [rows]. rewrite Hrows, Hpost, Hfiles.
      cbn [or_None UserForm ProfileForm is_valid is_bound andb has_errors
           errors orb]. reflexivity.
    + rewrite lookup_insert_eq. subst ru. reflexivity.
Qed.

(** X21: a POST to [vouch] that the form rejects is answered with the
    empty 400 response and changes nothing: nobody is vouched and no
    message is left. *)
Theorem X21_vouch_invalid_form request w :
  method request = "POST" ->
  VouchForm_clean (POST request) = None ->
  vouch request w = (inr HttpResponseBadRequest, w).
Proof.
  intros Hm Hform. unfold vouch, vouch_body. rewrite Hm, Hform.
  reflexivity.
Qed.

(** X22: a valid POST to [vouch] naming an existing profile saves the
    record that vouching by the current user's profile leaves, thanks the
    user with one message at info level, and redirects to the page of
    the vouched profile; the other rows and the identity attached to the
    request are untouched. *)
Theorem X22_vouch_success request w voucher k row :
  method request = "POST" ->
  VouchForm_clean (POST request) = Some (Some k) ->
  List.filter (fun r => pk r =? k) (db w) = [row] ->
  request_user w = Some voucher ->
  let target := vouched (fetched (mkQuerySet (db w) None) row) voucher in
  vouch request w =
    (inr (Responded (redirect "phonebook:profile_view"
                              [username (user target)])),
     mkWorld (map (fun r => if pk r =? pk row then target else r) (db w))
             (Some voucher)
             (trace w ++
                [Message INFO
                   "Thanks for vouching for a fellow Mozillian! This user is now vouched!"])).
Proof.
  intros Hm Hform Hrows Hu target.
  destruct w as [d u t]; cbn in Hu, Hrows; subst u.
  unfold vouch, vouch_body, vouch_profile. rewrite Hm, Hform.
  change (String.eqb "POST" "POST") with true. unfold_monad.
  cbv beta iota delta [db request_user trace].
  unfold get, qs_filter. cbn [rows]. rewrite Hrows. reflexivity.
Qed.

(** X23: [vouch] writes only when it succeeds: for every request and
    world, either the answer is the redirect to a profile page, or the
    table, the identity and the log are exactly as before (wrong method,
    rejected form, unknown or ambiguous vouchee, anonymous voucher). *)
Theorem X23_vouch_writes_only_on_success request w :
  (exists name,
     fst (vouch request w)
     = inr (Responded (redirect "phonebook:profile_view" [name])))
  \/ snd (vouch request w) = w.
Proof.
  destruct w as [d u t]. unfold vouch, vouch_body, vouch_profile.
  destruct (String.eqb (method request) "POST"); [|right; reflexivity].
  destruct (VouchForm_clean (POST request)) as [[k|]|];
    [| right; reflexivity | right; reflexivity].
  unfold_monad. cbv beta iota delta [db request_user trace].
  unfold get, qs_filter. cbn [rows].
  destruct (List.filter _ d) as [|row [|row2 rest]];
    [right; reflexivity | | right; reflexivity].
  destruct u as [voucher|]; [|right; reflexivity].
  left. eexists. reflexivity.
Qed.

(** X24: [register] always answers with the redirect home, and it calls
    [update_invites] exactly when a [code] parameter was sent by an
    authenticated user who is not vouched: then the stored profiles and
    the user on the request are what [update_invites] leaves of them;
    in every other case (no code, an anonymous user, a vouched user) the
    world is as it was. *)
Theorem X24_register_always_home request session w :
  let called :=
    match QueryDict_get (GET request) "code" with
    | Some _ => is_authenticated (request_user w) && negb (viewer_vouched w)
    | None => false
    end in
  let redeemed := invite_redeemed request (db w) (request_user w) in
  exists session',
    register request session w
    = (inr (redirect "phonebook:home" [], session'),
       if called
       then mkWorld (fst redeemed) (snd redeemed) (trace w ++ [UpdateInvites])
       else w).
Proof.
  intros called redeemed. subst called redeemed.
  exists (match QueryDict_get (GET request) "code" with
          | Some code => <["invite-code" := code]> session
          | None => session
          end).
  unfold register, update_invites, viewer_vouched. unfold_monad.
  destruct w as [d u t]. cbv beta iota delta [db request_user trace].
  destruct (QueryDict_get (GET request) "code") as [code|];
    [destruct u as [v|]; cbn [is_authenticated andb negb];
     [destruct (is_vouched v); cbn [negb]|]|];
    cbv beta iota delta [db request_user trace]; reflexivity.
Qed.

(** X25: the invite code [register] leaves in the session is the [code]
    parameter of the request, the last one when it is sent several times;
    it replaces a code stored before, every other session key keeps its
    value, and without a [code] parameter the session is as before. *)
Theorem X25_register_session request session w :
  let session' := match fst (register request session w) with
                  | inr (_, s) => s
                  | inl _ => session
                  end in
  session' !! "invite-code"
  = match QueryDict_get (GET request) "code" with
    | Some code => Some code
    | None => session !! "invite-code"
    end
  /\ (forall key, key <> "invite-code" -> session' !! key = session !! key)
  /\ (forall query code,
        GET request = (query ++ [("code", code)])%list ->
        session' !! "invite-code" = Some code).
Proof.
  assert (Hrun : fst (register request session w)
                 = inr (redirect "phonebook:home" [],
                        match QueryDict_get (GET request) "code" with
                        | Some code => <["invite-code" := code]> session
                        | None => session
                        end)).
  { unfold register, update_invites. unfold_monad.
    destruct (QueryDict_get (GET request) "code") as [code|]; [|reflexivity].
    destruct w as [d [v|] t]; cbv beta iota delta [db request_user trace];
      cbn [is_authenticated]; [destruct (is_vouched v); cbn [negb]|];
      reflexivity. }
  intros session'. subst session'. rewrite Hrun. split; [|split].
  - destruct (QueryDict_get _ _); by simplify_map_eq.
  - intros key Hkey. destruct (QueryDict_get _ _); by simplify_map_eq.
  - intros query code Hget. rewrite Hget, QueryDict_get_app_last.
    by simplify_map_eq.
Qed.

(** X26: the location list never fails and never writes; it shows
    exactly the profiles of the table that pass the vouched filter, whose
    country is the lowercased country code, and that match the city and
    the region case-insensitively when these are given and not empty. *)
Theorem X26_location_list_members request country_ region_ city_ w :
  exists ctx people,
    list_mozillians_in_location request country_ region_ city_ w
    = (inr (Render "phonebook/location-list.html" ctx 200), w)
    /\ ctx !! "people" = Some (VProfiles people)
    /\ forall p,
         In p people <->
         In p (db w) /\ vouched_q p = true /\ country p = lower country_
         /\ (text_truthy city_ = true ->
             iexact (city p) (default "" city_) = true)
         /\ (text_truthy region_ = true ->
             iexact (region p) (default "" region_) = true).
Proof.
  unfold list_mozillians_in_location. unfold_monad.
  cbv beta iota zeta delta [db request_user trace].
  eexists _, _. split; [reflexivity|]. split; [by simplify_map_eq|].
  intros p. destruct w as [d u t]. cbn [db].
  destruct (text_truthy city_), (text_truthy region_);
    unfold qs_filter; cbn [rows]; rewrite ?filter_In, String.eqb_eq;
    intuition congruence.
Qed.

(** X27: the country name shown is the entry of COUNTRIES for the
    lowercased country code, and the lowercased code itself when the
    table has no entry for it; region and city are shown as received. *)
Theorem X27_location_country_name request country_ region_ city_ w :
  exists ctx,
    fst (list_mozillians_in_location request country_ region_ city_ w)
    = inr (Render "phonebook/location-list.html" ctx 200)
    /\ ctx !! "country_name"
       = Some (VStr (match COUNTRIES !! lower country_ with
                     | Some name => name
                     | None => lower country_
                     end))
    /\ ctx !! "city_name" = Some (opt_value VStr city_)
    /\ ctx !! "region_name" = Some (opt_value VStr region_).
Proof.
  unfold list_mozillians_in_location. unfold_monad.
  cbv beta iota zeta delta [db request_user trace].
  eexists. split; [reflexivity|].
  destruct (COUNTRIES !! lower country_); repeat split; by simplify_map_eq.
Qed.

(** X28: when [view_as] is sent several times, the last value alone
    decides what [view_profile] does: the answer and the world are those
    for a request that carries only that last value.  The one exception
    is the login redirect an unauthenticated viewer gets: its
    destination is the full path of the request it answers, query string
    included, so there the two answers differ in nothing but that
    destination. *)
Theorem X28_last_view_as_wins fuel m pth query v po fi aj uname w :
  let sent := mkRequest m pth (query ++ [("view_as", v)])%list po fi aj in
  let last_only := mkRequest m pth [("view_as", v)] po fi aj in
  view_profile (S fuel) sent uname w = view_profile (S fuel) last_only uname w
  \/ (request_user w = None
      /\ view_profile (S fuel) sent uname w
         = (inr (HttpResponseRedirect (LoginUrl (get_full_path sent))),
            flash w [Message WARNING LOGIN_MESSAGE])
      /\ view_profile (S fuel) last_only uname w
         = (inr (HttpResponseRedirect (LoginUrl (get_full_path last_only))),
            flash w [Message WARNING LOGIN_MESSAGE])).
Proof.
  intros sent last_only.
  destruct (is_owner w uname) eqn:Hown.
  - left. unfold is_owner in Hown. apply andb_true_iff in Hown as [Hauth Hname].
    destruct (request_user w) as [me|] eqn:Hu; [|discriminate].
    apply String.eqb_eq in Hname. cbn in Hname.
    rewrite !(view_profile_owner_run _ _ _ _ me Hu Hname). cbv zeta.
    subst sent last_only. cbn [GET]. rewrite QueryDict_get_app_last.
    change (QueryDict_get [("view_as", v)] "view_as") with (Some v).
    reflexivity.
  - rewrite !(view_profile_non_owner_run _ _ _ _ Hown). cbv zeta.
    destruct (negb (exists_ (public _))
              && negb (is_authenticated (request_user w))) eqn:Hgate.
    + right. apply andb_true_iff in Hgate as [_ Hanon].
      destruct (request_user w); [discriminate|]. done.
    + left. reflexivity.
Qed.

End OtherHandlers.

(** * The further properties on the concrete environment *)

Lemma X1_unvouched_viewer_sent_home_witness :
  view_profile 1 (Demo.get_request "/u/carol" []) "carol"
               (Demo.world (Some Demo.bob))
  = (inr (redirect "phonebook:home" []),
     mkWorld Demo.table (Some Demo.bob)
             [Message ERROR "You must be vouched to continue."]).
Proof.
  apply (@X1_unvouched_viewer_sent_home Demo.env 0
           (Demo.get_request "/u/carol" []) "carol"
           (Demo.world (Some Demo.bob)) Demo.bob);
    first [reflexivity | simpl; discriminate].
Defined.

Lemma X3_vouch_form_offered_witness :
  let ctx : gmap string Value :=
    <["profile" := VProfile (set_instance_privacy_level MOZILLIANS Demo.bob)]>
    (<["shown_user" := VUser (user Demo.bob)]>
     (<["vouch_form" := VVouchForm 2]> ∅)) in
  view_profile 1 (Demo.get_request "/u/bob" []) "bob"
               (Demo.world (Some Demo.alice))
  = (inr (Render "phonebook/profile.html" ctx 200),
     Demo.world (Some Demo.alice))
  /\ ctx !! "vouch_form" = Some (VVouchForm 2).
Proof.
  intros ctx.
  assert (Hrun : view_profile 1 (Demo.get_request "/u/bob" []) "bob"
                              (Demo.world (Some Demo.alice))
                 = (inr (Render "phonebook/profile.html" ctx 200),
                    Demo.world (Some Demo.alice))) by reflexivity.
  split; [exact Hrun|].
  destruct (@X3_vouch_form_offered Demo.env 0 (Demo.get_request "/u/bob" [])
              "bob" (Demo.world (Some Demo.alice)) "phonebook/profile.html"
              ctx 200 (Demo.world (Some Demo.alice)) eq_refl Hrun)
    as (row & Hrow & Hform & _).
  injection Hrow as <-. exact Hform.
Defined.

Lemma X4_owner_preview_tiers_witness :
  view_profile 1 (Demo.get_request "/u/alice" [("view_as", "employee")])
               "alice" (Demo.world (Some Demo.alice))
  = (inr (render "phonebook/profile.html"
            (<["profile" :=
                 VProfile (set_instance_privacy_level EMPLOYEES Demo.alice)]>
             (<["shown_user" := VUser (user Demo.alice)]>
              (<["privacy_mode" := VStr "employee"]> ∅)))),
     Demo.world (Some Demo.alice)).
Proof.
  exact (@X4_owner_preview_tiers Demo.env 0
           (Demo.get_request "/u/alice" [("view_as", "employee")]) "alice"
           (Demo.world (Some Demo.alice)) Demo.alice Demo.alice "employee"
           EMPLOYEES eq_refl eq_refl eq_refl eq_refl eq_refl).
Defined.

Lemma X5_owner_never_turned_away_witness :
  snd (view_profile 1 (Demo.get_request "/u/carol" []) "carol"
                    (Demo.world (Some Demo.carol)))
  = Demo.world (Some Demo.carol).
Proof.
  exact (proj1 (@X5_owner_never_turned_away Demo.env 0
                  (Demo.get_request "/u/carol" []) "carol"
                  (Demo.world (Some Demo.carol)) Demo.carol
                  eq_refl eq_refl)).
Defined.

Lemma X6_non_owner_sees_profile_witness :
  view_profile 1 (Demo.get_request "/u/dave" []) "dave" (Demo.world None)
  = (inr (render "phonebook/profile.html"
            (<["profile" := VProfile (set_instance_privacy_level PUBLIC Demo.dave)]>
             (<["shown_user" := VUser (user Demo.dave)]> ∅))),
     Demo.world None).
Proof.
  apply (@X6_non_owner_sees_profile Demo.env 0 (Demo.get_request "/u/dave" [])
           "dave" (Demo.world None) Demo.dave).
  - reflexivity.
  - reflexivity.
  - simpl. discriminate.
  - left. reflexivity.
Defined.

Lemma X7_edit_profile_unbound_witness :
  exists data,
    edit_profile (Demo.get_request "/edit" []) (Demo.world (Some Demo.carol))
    = (inr (Render "phonebook/edit_profile.html" data 200),
       Demo.world (Some Demo.carol))
    /\ data !! "profile_form"
       = Some (VProfileForm true (mkForm false [] Demo.carol)).
Proof.
  destruct (@X7_edit_profile_unbound Demo.env (Demo.get_request "/edit" [])
              (Demo.world (Some Demo.carol)) Demo.carol Demo.carol
              eq_refl eq_refl eq_refl eq_refl)
    as (data & Hrun & _ & Hform & _).
  exists data. split; [exact Hrun | exact Hform].
Defined.

Lemma X8_edit_profile_success_witness :
  let request :=
    mkRequest "POST" "/edit" [("code", "abc")]
              [("username", "carol"); ("full_name", "Carol C.")] [] false in
  exists events,
    edit_profile request (Demo.world (Some Demo.carol))
    = (inr (HttpResponseRedirect (Reverse "phonebook:profile_view" ["carol"])),
       mkWorld
         [Demo.alice; Demo.bob;
          mkProfile 3 (mkUser 13 "carol" "carol@example.org") "Carol C." true
                    (Some 1) "tok-c" None;
          Demo.dave]
         (Some (Demo.invited Demo.carol))
         events)
    /\ map event_columns events
       = [SaveUser (mkUser 13 "carol" "carol@example.org");
          SaveProfile (mkProfile 3 (mkUser 13 "" "") "Carol C." false None
                                 "tok-c" None);
          UpdateInvites;
          Message INFO "Your account has been created."].
Proof.
  intros request.
  destruct (@X8_edit_profile_success Demo.env request
              (Demo.world (Some Demo.carol)) Demo.carol Demo.carol
              eq_refl eq_refl eq_refl eq_refl)
    as (events & Hrun & Hevents).
  exists events. split; [exact Hrun | exact Hevents].
Defined.

Lemma X9_edit_profile_anonymous_witness :
  edit_profile (Demo.get_request "/edit" []) (Demo.world None)
  = (inl DoesNotExist, Demo.world None).
Proof.
  exact (@X9_edit_profile_anonymous Demo.env (Demo.get_request "/edit" [])
           (Demo.world None) eq_refl).
Defined.

Lemma X10_post_only_witness :
  delete (Demo.get_request "/delete" []) (Demo.world (Some Demo.bob))
  = (inr (HttpResponseNotAllowed ["POST"]), Demo.world (Some Demo.bob))
  /\ vouch (Demo.get_request "/vouch" [("vouchee", "2")])
           (Demo.world (Some Demo.alice))
     = (inr (Responded (HttpResponseNotAllowed ["POST"])),
        Demo.world (Some Demo.alice)).
Proof.
  split.
  - apply (@X10_post_only Demo.env DemoMore.env
             (Demo.get_request "/delete" []) (Demo.world (Some Demo.bob))).
    simpl. discriminate.
  - apply (@X10_post_only Demo.env DemoMore.env
             (Demo.get_request "/vouch" [("vouchee", "2")])
             (Demo.world (Some Demo.alice))).
    simpl. discriminate.
Defined.

Lemma X11_delete_anonymous_witness :
  delete (Demo.post_request "/delete" []) (Demo.world None)
  = (inl AttributeError, Demo.world None).
Proof.
  exact (@X11_delete_anonymous Demo.env (Demo.post_request "/delete" [])
           (Demo.world None) eq_refl eq_refl).
Defined.

Lemma X12_delete_twice_witness :
  fst (delete (Demo.post_request "/delete" [])
              (snd (delete (Demo.post_request "/delete" [])
                           (Demo.world (Some Demo.bob)))))
  = inl AttributeError.
Proof.
  exact (f_equal fst
           (@X12_delete_twice Demo.env (Demo.post_request "/delete" [])
              (Demo.world (Some Demo.bob)) Demo.bob eq_refl eq_refl)).
Defined.

Lemma X14_search_invalid_form_witness :
  exists ctx,
    search (Demo.get_request "/search" [("q", "a"); ("limit", "x")])
           (Demo.world (Some Demo.alice))
    = (inr (Render "phonebook/search.html" ctx 200),
       Demo.world (Some Demo.alice))
    /\ ctx !! "people" = Some (VProfiles []).
Proof.
  destruct (@X14_search_invalid_form Demo.env
              (Demo.get_request "/search" [("q", "a"); ("limit", "x")])
              (Demo.world (Some Demo.alice)) eq_refl)
    as (ctx & Hrun & Hpeople & _).
  exists ctx. split; [exact Hrun | exact Hpeople].
Defined.

Lemma X15_search_groups_for_vouched_only_witness :
  let request := Demo.get_request "/search" [("q", "z")] in
  let ctx : gmap string Value :=
    <["people" := VPage (mkPage [] 1 (mkPaginator [] 20))]>
    (<["search_form" :=
         VSearchForm [("q", "z")] (Some (mkCleaned (Some "z") 20 false))]>
    (<["limit" := VInt 20]>
    (<["show_pagination" := VBool false]>
    (<["num_pages" := VInt 0]>
    (<["groups" := VNone]>
    (<["curated_groups" := VGroups [mkGroup "staff"]]> ∅)))))) in
  search request (Demo.world (Some Demo.bob))
  = (inr (Render "phonebook/search.html" ctx 200), Demo.world (Some Demo.bob))
  /\ ctx !! "groups" = Some VNone.
Proof.
  intros request ctx.
  assert (Hrun : search request (Demo.world (Some Demo.bob))
                 = (inr (Render "phonebook/search.html" ctx 200),
                    Demo.world (Some Demo.bob))) by reflexivity.
  split; [exact Hrun|].
  exact (proj1 (@X15_search_groups_for_vouched_only Demo.env request
                  (mkCleaned (Some "z") 20 false) (Demo.world (Some Demo.bob))
                  "phonebook/search.html" ctx 200 (Demo.world (Some Demo.bob))
                  eq_refl Hrun)).
Defined.

Lemma X16_search_pagination_shown_witness :
  let request := Demo.get_request "/search" [("q", ""); ("limit", "1")] in
  let ctx : gmap string Value :=
    <["people" :=
        VPage (mkPage [Demo.alice] 1 (mkPaginator [Demo.alice; Demo.dave] 1))]>
    (<["search_form" :=
         VSearchForm [("q", ""); ("limit", "1")]
                     (Some (mkCleaned (Some "") 1 false))]>
    (<["limit" := VInt 1]>
    (<["show_pagination" := VBool false]>
    (<["num_pages" := VInt 0]>
    (<["groups" := VGroups []]>
    (<["curated_groups" := VGroups [mkGroup "staff"]]> ∅)))))) in
  search request (Demo.world (Some Demo.alice))
  = (inr (Render "phonebook/search.html" ctx 200),
     Demo.world (Some Demo.alice))
  /\ ctx !! "show_pagination" = Some (VBool false).
Proof.
  intros request ctx.
  assert (Hrun : search request (Demo.world (Some Demo.alice))
                 = (inr (Render "phonebook/search.html" ctx 200),
                    Demo.world (Some Demo.alice))) by reflexivity.
  split; [exact Hrun|].
  exact (proj1 (@X16_search_pagination_shown Demo.env request
                  (mkCleaned (Some "") 1 false) (Demo.world (Some Demo.alice))
                  "phonebook/search.html" ctx 200
                  (Demo.world (Some Demo.alice)) eq_refl Hrun)).
Defined.

Lemma X17_search_page_window_witness :
  let request :=
    Demo.get_request "/search" [("q", ""); ("limit", "1"); ("page", "2")] in
  let ctx : gmap string Value :=
    <["people" :=
        VPage (mkPage [Demo.dave] 2 (mkPaginator [Demo.alice; Demo.dave] 1))]>
    (<["search_form" :=
         VSearchForm [("q", ""); ("limit", "1"); ("page", "2")]
                     (Some (mkCleaned (Some "") 1 false))]>
    (<["limit" := VInt 1]>
    (<["show_pagination" := VBool false]>
    (<["num_pages" := VInt 0]>
    (<["groups" := VGroups []]>
    (<["curated_groups" := VGroups [mkGroup "staff"]]> ∅)))))) in
  search request (Demo.world (Some Demo.alice))
  = (inr (Render "phonebook/search.html" ctx 200),
     Demo.world (Some Demo.alice))
  /\ exists pg,
       people_shown (Render "phonebook/search.html" ctx 200) pg
       /\ page_objects pg
          = take 1 (drop (Z.to_nat ((number pg - 1) * 1))
                         [Demo.alice; Demo.dave]).
Proof.
  intros request ctx.
  assert (Hrun : search request (Demo.world (Some Demo.alice))
                 = (inr (Render "phonebook/search.html" ctx 200),
                    Demo.world (Some Demo.alice))) by reflexivity.
  split; [exact Hrun|].
  destruct (@X17_search_page_window Demo.env request
              (mkCleaned (Some "") 1 false) (Demo.world (Some Demo.alice))
              (Render "phonebook/search.html" ctx 200)
              (Demo.world (Some Demo.alice)) eq_refl ltac:(simpl; lia) Hrun)
    as (pg & Hshown & _ & Hobj).
  exists pg. split; [exact Hshown | exact Hobj].
Defined.

Lemma X18_search_group_blocks_shortcut_witness :
  exists ctx pg,
    @search (DemoMore.variant Demo.clean (fun _ => [mkGroup "staff"]))
       (Demo.get_request "/search" [("q", "da")])
       (Demo.world (Some Demo.alice))
    = (inr (Render "phonebook/search.html" ctx 200),
       Demo.world (Some Demo.alice))
    /\ ctx !! "people" = Some (VPage pg)
    /\ page_objects pg = [Demo.dave]
    /\ ctx !! "groups" = Some (VGroups [mkGroup "staff"]).
Proof.
  exact (@X18_search_group_blocks_shortcut
           (DemoMore.variant Demo.clean (fun _ => [mkGroup "staff"]))
           (Demo.get_request "/search" [("q", "da")])
           (mkCleaned (Some "da") 20 false) (Demo.world (Some Demo.alice))
           Demo.dave (mkGroup "staff") []
           eq_refl ltac:(simpl; lia) eq_refl eq_refl eq_refl).
Defined.

Lemma X19_search_limit_zero_witness :
  @search (DemoMore.variant DemoMore.any_limit (fun _ => []))
     (Demo.get_request "/search" [("q", "a"); ("limit", "0")])
     (Demo.world None)
  = (inl ZeroDivisionError, Demo.world None).
Proof.
  exact (@X19_search_limit_zero
           (DemoMore.variant DemoMore.any_limit (fun _ => []))
           (Demo.get_request "/search" [("q", "a"); ("limit", "0")])
           (mkCleaned (Some "a") 0 false) (Demo.world None)
           eq_refl eq_refl).
Defined.

Lemma X20_login_matches_edit_form_witness :
  login (Demo.get_request "/login" []) (Demo.world (Some Demo.carol))
  = (inr (redirect "phonebook:profile_edit" []), Demo.world (Some Demo.carol))
  /\ exists data,
       edit_profile (Demo.get_request "/edit" []) (Demo.world (Some Demo.carol))
       = (inr (Render "phonebook/edit_profile.html" data 200),
          Demo.world (Some Demo.carol))
       /\ data !! "profile_form"
          = Some (VProfileForm true (mkForm false [] Demo.carol)).
Proof.
  exact (@X20_login_matches_edit_form Demo.env
           (Demo.get_request "/login" []) (Demo.get_request "/edit" [])
           (Demo.world (Some Demo.carol)) Demo.carol Demo.carol
           eq_refl eq_refl eq_refl eq_refl eq_refl).
Defined.

Lemma X21_vouch_invalid_form_witness :
  vouch (Demo.post_request "/vouch" [("vouchee", "bob")])
        (Demo.world (Some Demo.alice))
  = (inr HttpResponseBadRequest, Demo.world (Some Demo.alice)).
Proof.
  exact (@X21_vouch_invalid_form DemoMore.env
           (Demo.post_request "/vouch" [("vouchee", "bob")])
           (Demo.world (Some Demo.alice)) eq_refl eq_refl).
Defined.

Lemma X22_vouch_success_witness :
  vouch (Demo.post_request "/vouch" [("vouchee", "2")])
        (Demo.world (Some Demo.alice))
  = (inr (Responded (redirect "phonebook:profile_view" ["bob"])),
     mkWorld
       [Demo.alice;
        mkProfile 2 (mkUser 12 "bob" "bob@example.org") "Bob B." true (Some 1)
                  "tok-b" None;
        Demo.carol; Demo.dave]
       (Some Demo.alice)
       [Message INFO
          "Thanks for vouching for a fellow Mozillian! This user is now vouched!"]).
Proof.
  exact (@X22_vouch_success DemoMore.env
           (Demo.post_request "/vouch" [("vouchee", "2")])
           (Demo.world (Some Demo.alice)) Demo.alice 2 Demo.bob
           eq_refl eq_refl eq_refl eq_refl).
Defined.

Section InviteMore.
Variable clean : QueryDict -> Invite -> list string * Invite.

(** X29: a POST to [invite] by an authenticated user whose form is valid
    saves the invitation, then sends it with the user's profile as
    sender, leaves one success message naming the recipient, and
    redirects home; the table and the identity are untouched. *)
Theorem X29_invite_success request outbox w profile :
  request_user w = Some profile ->
  method request = "POST" ->
  let invite_form :=
    InviteForm clean (or_None (POST request)) (mkInvite (pk profile) "") in
  is_valid invite_form = true ->
  invite clean request outbox w =
    (inr (InviteResponded (redirect "phonebook:home" []),
          (outbox ++ [InviteSaved (instance invite_form);
                      InviteSent (instance invite_form) (pk profile)])%list),
     flash w
       [Message SUCCESS
          (recipient (instance invite_form) ++
           " has been invited to Mozillians. They'll receive an email with instructions on how to join. You can invite another Mozillian if you like.")]).
Proof.
  intros Hu Hm invite_form Hvalid.
  destruct w as [d u t]; cbn in Hu; subst u.
  unfold invite, flash. unfold_monad.
  cbv beta iota zeta delta [db request_user trace].
  fold invite_form. rewrite Hm, Hvalid.
  change (String.eqb "POST" "POST") with true. cbn [andb].
  rewrite <- app_assoc. reflexivity.
Qed.

(** X30: nothing is saved, sent or logged by [invite] unless the request
    is a POST with a valid form: with another method or an invalid form
    the invite page is rendered again with the form and the invitations
    and the world are as before. *)
Theorem X30_invite_nothing_sent request outbox w profile :
  request_user w = Some profile ->
  let invite_form :=
    InviteForm clean (or_None (POST request)) (mkInvite (pk profile) "") in
  method request <> "POST" \/ is_valid invite_form = false ->
  invite clean request outbox w =
    (inr (InviteRender "phonebook/invite.html" invite_form, outbox), w).
Proof.
  intros Hu invite_form Hno.
  destruct w as [d u t]; cbn in Hu; subst u.
  unfold invite. unfold_monad.
  cbv beta iota zeta delta [db request_user trace].
  fold invite_form.
  assert (Hcond : String.eqb (method request) "POST" && is_valid invite_form
                  = false).
  { destruct Hno as [Hm|Hv].
    - apply String.eqb_neq in Hm. by rewrite Hm.
    - rewrite Hv. apply andb_false_r. }
  rewrite Hcond. reflexivity.
Qed.

End InviteMore.

Lemma X29_invite_success_witness :
  invite demo_invite_clean
    (Demo.post_request "/invite" [("recipient", "eve@example.org")])
    [] (Demo.world (Some Demo.alice))
  = (inr (InviteResponded (redirect "phonebook:home" []),
          [InviteSaved (mkInvite 1 "eve@example.org");
           InviteSent (mkInvite 1 "eve@example.org") 1]),
     mkWorld Demo.table (Some Demo.alice)
       [Message SUCCESS
          "eve@example.org has been invited to Mozillians. They'll receive an email with instructions on how to join. You can invite another Mozillian if you like."]).
Proof.
  exact (X29_invite_success demo_invite_clean
           (Demo.post_request "/invite" [("recipient", "eve@example.org")])
           [] (Demo.world (Some Demo.alice)) Demo.alice
           eq_refl eq_refl eq_refl).
Defined.

Lemma X30_invite_nothing_sent_witness :
  invite demo_invite_clean (Demo.post_request "/invite" [("recipient", "")])
         [] (Demo.world (Some Demo.alice))
  = (inr (InviteRender "phonebook/invite.html"
            (mkForm true ["recipient: This field is required."]
                    (mkInvite 1 "")), []),
     Demo.world (Some Demo.alice)).
Proof.
  apply (X30_invite_nothing_sent demo_invite_clean
           (Demo.post_request "/invite" [("recipient", "")])
           [] (Demo.world (Some Demo.alice)) Demo.alice eq_refl).
  right. reflexivity.
Defined.
